(** * Hashira_Task2: the weekly menu planner of [main.go]

    A shallow embedding of the combo planner ([categorizeMenu],
    [calculateComboMetrics], [isValidCombo], [generateReasoning],
    [generateDailyCombos], [generateMenuSuggestions]) and the properties
    its specification states about it.

    Conventions of the embedding:
    - Go's [int] is a 64-bit two's complement integer: a [Z] with the
      wrap-around of [+], [-] and [++] written out ([wrap64]);
    - Go's [float64] is the kernel's binary64 [float], with the same
      IEEE 754 operations;
    - Go's [string] is a byte string, [map[string]T] is a [gmap string T]
      read with Go's zero value for a missing key;
    - the objects the Go code mutates through pointers and map references
      (the first-day set, the signature map, the identifier counter, the
      global random source) live in one explicit [Store];
    - the global random source, seeded from the clock at line 231, is an
      argument of the run: the sequence of values it will deliver;
    - a run-time panic (index out of range) is the [Panic] result;
    - the loops are recursions on the number of passes left;
    - what the [log] package prints is left out, but not the evaluation
      of the arguments it is given ([dayNames[dayIndex]], line 241).

    The functions of the standard library the code calls ([sort.Strings],
    [sort.Float64s], [strings.Join], [math.Round], [rand.Intn], the verbs
    of [fmt.Sprintf]) are modelled from their documentation.  The HTTP
    handler and the reading of the JSON file are outside the embedding. *)

From Stdlib Require Import ZArith String Ascii List Bool Lia Floats.
From stdpp Require Import gmap strings pretty sorting.
Import ListNotations.

Local Open Scope string_scope.
Local Open Scope list_scope.
Local Open Scope Z_scope.

(** ** Results: a value, or a run-time panic *)

Inductive result (A : Type) : Type :=
| Ok (a : A)
| Panic (msg : string).
Arguments Ok {A} a.
Arguments Panic {A} msg.

#[global] Instance result_ret : MRet result := fun A a => Ok a.
#[global] Instance result_bind : MBind result := fun A B k r =>
  match r with
  | Ok a => k a
  | Panic msg => Panic msg
  end.

(** [xs[i]] on a Go slice: a panic when [i] is out of range. *)
Definition index {A : Type} (xs : list A) (i : Z) : result A :=
  if (0 <=? i) && (i <? Z.of_nat (length xs)) then
    match xs !! Z.to_nat i with
    | Some x => Ok x
    | None => Panic "index out of range"
    end
  else Panic "index out of range".

(** ** Go's [int] *)

Definition wrap64 (z : Z) : Z := (z + 2 ^ 63) mod 2 ^ 64 - 2 ^ 63.
Definition int_add (a b : Z) : Z := wrap64 (a + b).
Definition int_sub (a b : Z) : Z := wrap64 (a - b).
Definition is_int (z : Z) : Prop := - 2 ^ 63 <= z < 2 ^ 63.

(** ** Go's [float64] *)

(** The constant [0.15] of line 182 and [3.0], [100] of lines 73 and 193,
    as the nearest binary64 values. *)
Definition f0_15 : float := 0x1.3333333333333p-3%float.
Definition f3 : float := 3%float.
Definition f100 : float := 100%float.

(** [sort.Float64s] orders with [x < y || (isNaN(x) && !isNaN(y))]. *)
Definition float_less (x y : float) : bool :=
  PrimFloat.ltb x y || (PrimFloat.is_nan x && negb (PrimFloat.is_nan y)).

(** [math.Round]: the nearest integer, halves away from zero; zeros,
    infinities and NaN are returned as they are. *)
Definition math_Round (x : float) : float :=
  match Prim2SF x with
  | S754_finite s m e =>
      if 0 <=? e then x
      else
        let k := - e in
        let q := Z.shiftr (Zpos m) k in
        let n := if Z.testbit (Zpos m) (k - 1) then q + 1 else q in
        let v := PrimFloat.of_uint63 (Uint63.of_Z n) in
        if s then PrimFloat.opp v else v
  | _ => x
  end.

(** ** Formatting ([fmt.Sprintf]) *)

(** [%d] *)
Definition fmt_d (n : Z) : string := pretty n.

(** Nearest integer to [num / 2^k], ties to even: the rounding of
    [strconv]'s decimal conversion. *)
Definition round_half_even (num : Z) (k : Z) : Z :=
  let den := 2 ^ k in
  let q := num / den in
  let r := num mod den in
  if 2 * r <? den then q
  else if den <? 2 * r then q + 1
  else if Z.even q then q else q + 1.

Definition two_digits (n : Z) : string :=
  if n <? 10 then "0" +:+ pretty n else pretty n.

(** [%.2f] *)
Definition fmt_f2 (x : float) : string :=
  match Prim2SF x with
  | S754_nan => "NaN"
  | S754_infinity s => if s then "-Inf" else "+Inf"
  | S754_zero s => (if s then "-" else "") +:+ "0.00"
  | S754_finite s m e =>
      let h := if 0 <=? e then 100 * Zpos m * 2 ^ e
               else round_half_even (100 * Zpos m) (- e) in
      (if s then "-" else "") +:+ pretty (h / 100) +:+ "." +:+ two_digits (h mod 100)
  end.

(** ** Sorting and joining strings ([sort.Strings], [strings.Join]) *)

(** The insertion sort the [sort] package runs on short slices: each
    element moves left while it is less than its left neighbour.  The
    sorted prefix is kept reversed. *)
Fixpoint insert_left {A : Type} (less : A -> A -> bool) (x : A) (rev_prefix : list A) : list A :=
  match rev_prefix with
  | [] => [x]
  | y :: r => if less x y then y :: insert_left less x r else x :: y :: r
  end.

Definition insertion_sort {A : Type} (less : A -> A -> bool) (xs : list A) : list A :=
  rev (fold_left (fun acc x => insert_left less x acc) xs []).

Definition sort_Strings (xs : list string) : list string :=
  insertion_sort String.ltb xs.

Definition sort_Float64s (xs : list float) : list float :=
  insertion_sort float_less xs.

Fixpoint strings_Join (elems : list string) (sep : string) : string :=
  match elems with
  | [] => ""
  | [x] => x
  | x :: rest => x +:+ sep +:+ strings_Join rest sep
  end.

(** ** The data model (lines 16-45) *)

Record MenuItem : Type := {
  ItemName : string;
  Category : string;
  Calories : Z;
  TasteProfile : string;
  PopularityScore : float
}.

Record Combo : Type := {
  ComboID : string;
  Main : string;
  Side : string;
  Drink : string;
  CalorieCount : Z;
  PopularityAvg : float;
  Reasoning : string
}.

Record DailyMenu : Type := {
  Day : string;
  Combos : list Combo
}.

(** The Go struct [MenuPlan] has a single field, also named [MenuPlan]. *)
Record MenuPlan : Type := {
  MenuPlan_MenuPlan : list DailyMenu
}.

(** [m[k]] on a [map[string]bool] and on a [map[string][]MenuItem]:
    the zero value when the key is missing. *)
Definition get_bool (m : gmap string bool) (k : string) : bool :=
  default false (m !! k).

Definition get_items (m : gmap string (list MenuItem)) (k : string) : list MenuItem :=
  default [] (m !! k).

(** ** [categorizeMenu] (lines 62-68) *)

Definition categorizeMenu (items : list MenuItem) : gmap string (list MenuItem) :=
  fold_left
    (fun categorized item =>
       <[Category item := get_items categorized (Category item) ++ [item]]> categorized)
    items ∅.

(** ** [calculateComboMetrics] (lines 71-75) *)

Definition calculateComboMetrics (main side drink : MenuItem) : Z * float :=
  let totalCalories := int_add (int_add (Calories main) (Calories side)) (Calories drink) in
  let averagePopularity :=
    PrimFloat.div
      (PrimFloat.add (PrimFloat.add (PopularityScore main) (PopularityScore side))
                     (PopularityScore drink))
      f3 in
  (totalCalories, averagePopularity).

(** ** [isValidCombo] (lines 78-92) *)

(** Line 85 *)
Definition popularityScores (main side drink : MenuItem) : list float :=
  [PopularityScore main; PopularityScore side; PopularityScore drink].

Definition isValidCombo (main side drink : MenuItem)
    (minCalories maxCalories : Z) (popularityTolerance : float) : bool :=
  let totalCalories := fst (calculateComboMetrics main side drink) in
  if negb ((minCalories <=? totalCalories) && (totalCalories <=? maxCalories)) then false
  else
    let popularityScores := sort_Float64s (popularityScores main side drink) in
    if (1 <? Z.of_nat (length popularityScores))
       && PrimFloat.ltb popularityTolerance
            (PrimFloat.sub
               (nth (length popularityScores - 1)%nat popularityScores PrimFloat.nan)
               (nth 0 popularityScores PrimFloat.nan))
    then false
    else true.

(** ** [generateReasoning] (lines 95-120) *)

(** Lines 96-116: the description of the taste profiles.  The [range]
    loop of lines 103-105 runs over the entries of the map. *)
Definition tasteDescription (main side drink : MenuItem) : string :=
  let tasteProfiles : gmap string bool :=
    <[TasteProfile drink := true]>
      (<[TasteProfile side := true]>
         (<[TasteProfile main := true]> ∅)) in
  if Z.of_nat (size tasteProfiles) =? 1 then
    fold_left (fun _ kv => "a " +:+ fst kv +:+ " profile") (map_to_list tasteProfiles) ""
  else if get_bool tasteProfiles "spicy" then "a spicy and mixed taste profile"
  else if get_bool tasteProfiles "sweet" then "a sweet and mixed taste profile"
  else if get_bool tasteProfiles "savory" then "a savory and mixed taste profile"
  else if get_bool tasteProfiles "fresh" then "a fresh and mixed taste profile"
  else "a mixed taste profile".

Definition generateReasoning (main side drink : MenuItem)
    (totalCalories : Z) (avgPopularity : float) : string :=
  let tasteDesc := tasteDescription main side drink in
  "This combo features " +:+ tasteDesc
  +:+ ", consists of popular choices (average popularity: " +:+ fmt_f2 avgPopularity
  +:+ "), and meets the calorie target (" +:+ fmt_d totalCalories +:+ " kcal).".

(** ** The random source ([math/rand]) *)

(** The global source, once seeded, is a fixed sequence of values; every
    call of [rand.Intn] consumes the next one.  [raw] is that sequence,
    [used] the number of values consumed so far; [rand.Intn(n)] delivers
    a value of [[0, n)], here the raw value reduced modulo [n], and
    panics when [n <= 0].  Every sequence of results of [rand.Intn] is
    the image of some [raw]. *)
Record Source : Type := {
  raw : nat -> Z;
  used : nat
}.

Definition rand_Intn (n : Z) (src : Source) : result (Z * Source) :=
  if n <=? 0 then Panic "invalid argument to Intn"
  else Ok (raw src (used src) mod n, {| raw := raw src; used := S (used src) |}).

(** ** The mutable objects of one run (lines 233-236 and the source) *)

Record Store : Type := {
  day1OverallUsedItems : gmap string bool;
  allGeneratedComboSignatures : gmap string Z;
  globalComboCounter : Z;
  randSource : Source
}.

(** A [*map[string]bool] of this program: [nil], or the address of
    [day1OverallUsedItems] (line 245). *)
Inductive MapPtr : Type :=
| nilPtr
| day1OverallUsedItemsPtr.

Definition set_randSource (src : Source) (st : Store) : Store :=
  {| day1OverallUsedItems := day1OverallUsedItems st;
     allGeneratedComboSignatures := allGeneratedComboSignatures st;
     globalComboCounter := globalComboCounter st;
     randSource := src |}.

(** ** [generateDailyCombos] (lines 124-221) *)

Definition maxAttemptsPerCombo : nat := 5000.

(** Lines 169-171 *)
Definition comboSignature (mainName sideName drinkName : string) : string :=
  strings_Join (sort_Strings [mainName; sideName; drinkName]) "_".

(** Lines 153-155: the three draws. *)
Definition drawItems (mains sides drinks : list MenuItem) (src : Source)
    : result (MenuItem * MenuItem * MenuItem * Source) :=
  '(i, src) ← rand_Intn (Z.of_nat (length mains)) src;
  mainItem ← index mains i;
  '(j, src) ← rand_Intn (Z.of_nat (length sides)) src;
  sideItem ← index sides j;
  '(k, src) ← rand_Intn (Z.of_nat (length drinks)) src;
  drinkItem ← index drinks k;
  mret (mainItem, sideItem, drinkItem, src).

(** Lines 157-162 *)
Definition isUniqueForDay1 (usedItemsForDay1 : MapPtr) (st : Store)
    (mainItem sideItem drinkItem : MenuItem) : bool :=
  match usedItemsForDay1 with
  | nilPtr => true
  | day1OverallUsedItemsPtr =>
      negb (get_bool (day1OverallUsedItems st) (ItemName mainItem)
            || get_bool (day1OverallUsedItems st) (ItemName sideItem)
            || get_bool (day1OverallUsedItems st) (ItemName drinkItem))
  end.

(** Lines 164-167 *)
Definition isUniqueForCurrentDayItems (currentDayUsedItems : gmap string bool)
    (mainItem sideItem drinkItem : MenuItem) : bool :=
  negb (get_bool currentDayUsedItems (ItemName mainItem)
        || get_bool currentDayUsedItems (ItemName sideItem)
        || get_bool currentDayUsedItems (ItemName drinkItem)).

(** Lines 174-179 *)
Definition isUniqueWithin3Days (st : Store) (currentDayIndex : Z)
    (mainItem sideItem drinkItem : MenuItem) : bool :=
  match allGeneratedComboSignatures st
          !! comboSignature (ItemName mainItem) (ItemName sideItem) (ItemName drinkItem) with
  | Some lastUsedDay => negb (int_sub currentDayIndex lastUsedDay <? 3)
  | None => true
  end.

(** The condition of lines 181-182. *)
Definition accepts (minCalories maxCalories : Z) (usedItemsForDay1 : MapPtr)
    (currentDayIndex : Z) (currentDayUsedItems : gmap string bool) (st : Store)
    (mainItem sideItem drinkItem : MenuItem) : bool :=
  isUniqueForDay1 usedItemsForDay1 st mainItem sideItem drinkItem
  && isUniqueForCurrentDayItems currentDayUsedItems mainItem sideItem drinkItem
  && isUniqueWithin3Days st currentDayIndex mainItem sideItem drinkItem
  && isValidCombo mainItem sideItem drinkItem minCalories maxCalories f0_15.

(** Lines 184-195: the combo built with the counter's new value. *)
Definition buildCombo (mainItem sideItem drinkItem : MenuItem) (counter : Z) : Combo :=
  let '(totalCalories, avgPopularity) := calculateComboMetrics mainItem sideItem drinkItem in
  {| ComboID := "combo_" +:+ fmt_d counter;
     Main := ItemName mainItem;
     Side := ItemName sideItem;
     Drink := ItemName drinkItem;
     CalorieCount := totalCalories;
     PopularityAvg := PrimFloat.div (math_Round (PrimFloat.mul avgPopularity f100)) f100;
     Reasoning := generateReasoning mainItem sideItem drinkItem totalCalories avgPopularity |}.

(** Lines 198-200 *)
Definition markUsed (m : gmap string bool) (mainItem sideItem drinkItem : MenuItem)
    : gmap string bool :=
  <[ItemName drinkItem := true]>
    (<[ItemName sideItem := true]>
       (<[ItemName mainItem := true]> m)).

(** Lines 186 and 202-208: the writes to the shared objects. *)
Definition recordAccepted (usedItemsForDay1 : MapPtr) (currentDayIndex : Z)
    (mainItem sideItem drinkItem : MenuItem) (st : Store) : Store :=
  {| day1OverallUsedItems :=
       match usedItemsForDay1 with
       | nilPtr => day1OverallUsedItems st
       | day1OverallUsedItemsPtr =>
           markUsed (day1OverallUsedItems st) mainItem sideItem drinkItem
       end;
     allGeneratedComboSignatures :=
       <[comboSignature (ItemName mainItem) (ItemName sideItem) (ItemName drinkItem)
         := currentDayIndex]> (allGeneratedComboSignatures st);
     globalComboCounter := int_add (globalComboCounter st) 1;
     randSource := randSource st |}.

(** The objects a day's generation works on: the local variables
    [dailyCombos] and [currentDayUsedItems] (lines 133-134) and the
    shared store. *)
Record DayState : Type := {
  dailyCombos : list Combo;
  currentDayUsedItems : gmap string bool;
  store : Store
}.

(** The source with [n] more values consumed. *)
Definition advance (n : nat) (src : Source) : Source :=
  {| raw := raw src; used := n + used src |}.

(** The state of a day with the source replaced, and with [n] more
    values consumed. *)
Definition with_source (src : Source) (ds : DayState) : DayState :=
  {| dailyCombos := dailyCombos ds;
     currentDayUsedItems := currentDayUsedItems ds;
     store := set_randSource src (store ds) |}.

Definition skip (n : nat) (ds : DayState) : DayState :=
  with_source (advance n (randSource (store ds))) ds.

Section Sampler.
Variables mains sides drinks : list MenuItem.
Variables minCalories maxCalories : Z.
Variable usedItemsForDay1 : MapPtr.
Variable currentDayIndex : Z.

(** Lines 184-210: what an accepted draw does. *)
Definition acceptCombo (mainItem sideItem drinkItem : MenuItem) (ds : DayState) : DayState :=
  let st := recordAccepted usedItemsForDay1 currentDayIndex
              mainItem sideItem drinkItem (store ds) in
  {| dailyCombos :=
       dailyCombos ds ++ [buildCombo mainItem sideItem drinkItem (globalComboCounter st)];
     currentDayUsedItems :=
       markUsed (currentDayUsedItems ds) mainItem sideItem drinkItem;
     store := st |}.

(** One pass through the body of the inner loop (lines 153-212); the
    boolean is [comboFound]. *)
Definition attempt (ds : DayState) : result (bool * DayState) :=
  '(mainItem, sideItem, drinkItem, src) ←
    drawItems mains sides drinks (randSource (store ds));
  let ds := {| dailyCombos := dailyCombos ds;
               currentDayUsedItems := currentDayUsedItems ds;
               store := set_randSource src (store ds) |} in
  if accepts minCalories maxCalories usedItemsForDay1 currentDayIndex
       (currentDayUsedItems ds) (store ds) mainItem sideItem drinkItem
  then mret (true, acceptCombo mainItem sideItem drinkItem ds)
  else mret (false, ds).

(** The inner loop (lines 150-213), [remaining] being
    [maxAttemptsPerCombo - attempts]; it returns the final [attempts]
    and [comboFound]. *)
Fixpoint attemptLoop (remaining : nat) (attempts : Z) (ds : DayState)
    : result (Z * bool * DayState) :=
  match remaining with
  | O => mret (attempts, false, ds)
  | S remaining' =>
      let attempts := int_add attempts 1 in
      '(comboFound, ds) ← attempt ds;
      if comboFound : bool then mret (attempts, true, ds)
      else attemptLoop remaining' attempts ds
  end.

(** The outer loop (lines 147-219), [remaining] being the number of
    slots still to fill; a slot without a combo ends the day. *)
Fixpoint slotLoop (remaining : nat) (ds : DayState) : result DayState :=
  match remaining with
  | O => mret ds
  | S remaining' =>
      '(_, comboFound, ds) ← attemptLoop maxAttemptsPerCombo 0 ds;
      if comboFound : bool then slotLoop remaining' ds
      else mret ds
  end.
End Sampler.

(** Lines 133-134: a day starts with no combo and no used item. *)
Definition freshDay (st : Store) : DayState :=
  {| dailyCombos := []; currentDayUsedItems := ∅; store := st |}.

Definition generateDailyCombos (categorizedMenu : gmap string (list MenuItem))
    (numCombosPerDay minCalories maxCalories : Z) (usedItemsForDay1 : MapPtr)
    (currentDayIndex : Z) (st : Store) : result (list Combo * Store) :=
  let mains := get_items categorizedMenu "main" in
  let sides := get_items categorizedMenu "side" in
  let drinks := get_items categorizedMenu "drink" in
  if (Z.of_nat (length mains) =? 0) || (Z.of_nat (length sides) =? 0)
     || (Z.of_nat (length drinks) =? 0)
  then mret ([], st)
  else
    ds ← slotLoop mains sides drinks minCalories maxCalories usedItemsForDay1
           currentDayIndex (Z.to_nat numCombosPerDay) (freshDay st);
    mret (dailyCombos ds, store ds).

(** ** [generateMenuSuggestions] (lines 224-272) *)

Definition dayNames : list string :=
  ["Monday"; "Tuesday"; "Wednesday"; "Thursday"; "Friday"; "Saturday"; "Sunday"].

(** Lines 243-248: the first-day set is handed over on day 0 only. *)
Definition trackerFor (dayIndex : Z) : MapPtr :=
  if dayIndex =? 0 then day1OverallUsedItemsPtr else nilPtr.

Section Week.
Variable categorizedMenu : gmap string (list MenuItem).
Variables numCombosPerDay minCalories maxCalories : Z.

(** One pass through the body of the loop over the days (lines
    241-269); the day's name is first read at line 241. *)
Definition generateDay (dayIndex : Z) (fullMenuPlan : list DailyMenu) (st : Store)
    : result (list DailyMenu * Store) :=
  dayName ← index dayNames dayIndex;
  let currentDayItemUniquenessTracker := trackerFor dayIndex in
  '(combos, st) ← generateDailyCombos categorizedMenu numCombosPerDay
                    minCalories maxCalories currentDayItemUniquenessTracker dayIndex st;
  mret (fullMenuPlan ++ [{| Day := dayName; Combos := combos |}], st).

(** The loop over the days (line 240), [remaining] being
    [numDays - dayIndex]. *)
Fixpoint dayLoop (remaining : nat) (dayIndex : Z) (fullMenuPlan : list DailyMenu)
    (st : Store) : result (list DailyMenu * Store) :=
  match remaining with
  | O => mret (fullMenuPlan, st)
  | S remaining' =>
      '(fullMenuPlan, st) ← generateDay dayIndex fullMenuPlan st;
      dayLoop remaining' (int_add dayIndex 1) fullMenuPlan st
  end.
End Week.

(** The store of lines 233-236, with the source as [rand.Seed] of line
    231 left it. *)
Definition initialStore (seeded : Source) : Store :=
  {| day1OverallUsedItems := ∅;
     allGeneratedComboSignatures := ∅;
     globalComboCounter := 0;
     randSource := seeded |}.

(** The run, with the final state of its objects. *)
Definition runWeek (masterMenu : list MenuItem)
    (numDays numCombosPerDay minCalories maxCalories : Z) (seeded : Source)
    : result (list DailyMenu * Store) :=
  dayLoop (categorizeMenu masterMenu) numCombosPerDay minCalories maxCalories
    (Z.to_nat numDays) 0 [] (initialStore seeded).

Definition generateMenuSuggestions (masterMenu : list MenuItem)
    (numDays numCombosPerDay minCalories maxCalories : Z) (seeded : Source)
    : result MenuPlan :=
  '(fullMenuPlan, _) ← runWeek masterMenu numDays numCombosPerDay
                         minCalories maxCalories seeded;
  mret {| MenuPlan_MenuPlan := fullMenuPlan |}.

(** ** [loadMenuFromJSON] (lines 48-59) and [generateMenuHandler] (lines 275-295) *)

(** A Go result with an [error]: the value, or the text of the error
    ([err.Error()], which is what [%v] and [%w] print). *)
Inductive fallible (A : Type) : Type :=
  | Done (a : A)
  | Failed (err : string).
Arguments Done {A} a.
Arguments Failed {A} err.

(** What the handler has written when it returns: the status code, the
    [Content-Type] header and the body. *)
Record Response : Type := {
  StatusCode : Z;
  ContentType : string;
  Body : string
}.

Definition newline : string := String "010"%char EmptyString.

(** [http.Error]: the message and a line feed as plain text. *)
Definition http_Error (error : string) (code : Z) : Response :=
  {| StatusCode := code;
     ContentType := "text/plain; charset=utf-8";
     Body := error +:+ newline |}.

Definition http_StatusInternalServerError : Z := 500.
Definition http_StatusOK : Z := 200.

Section Handler.
(** The file system and [encoding/json] are the program's environment:
    [os.ReadFile], [json.Unmarshal] into a slice of [MenuItem] and the
    encoder's output for a [MenuPlan]. *)
Variable os_ReadFile : string -> fallible (list Byte.byte).
Variable json_Unmarshal : list Byte.byte -> fallible (list MenuItem).
Variable json_Marshal : MenuPlan -> fallible string.

Definition loadMenuFromJSON (path : string) : fallible (list MenuItem) :=
  match os_ReadFile path with
  | Failed err => Failed ("failed to read menu file " +:+ path +:+ ": " +:+ err)
  | Done data =>
      match json_Unmarshal data with
      | Failed err => Failed ("failed to unmarshal JSON from " +:+ path +:+ ": " +:+ err)
      | Done items => Done items
      end
  end.

(** [json.NewEncoder(w).Encode]: the encoding and a line feed; when the
    value cannot be encoded nothing is written, and the handler drops
    the error (line 294). *)
Definition json_Encode (menuPlan : MenuPlan) : string :=
  match json_Marshal menuPlan with
  | Done text => text +:+ newline
  | Failed _ => EmptyString
  end.

(** The handler, with the source as [rand.Seed] leaves it at the time
    of the request. *)
Definition generateMenuHandler (seeded : Source) : result Response :=
  let menuFilePath := "./data/master_menu.json" in
  match loadMenuFromJSON menuFilePath with
  | Failed err =>
      mret (http_Error ("Unable to load menu file: " +:+ err)
              http_StatusInternalServerError)
  | Done items =>
      if Z.of_nat (length items) =? 0
      then mret (http_Error "Master menu is empty or could not be loaded."
                   http_StatusInternalServerError)
      else
        menuPlan ← generateMenuSuggestions items 7 3 550 800 seeded;
        mret {| StatusCode := http_StatusOK;
                ContentType := "application/json";
                Body := json_Encode menuPlan |}
  end.
End Handler.

(** ** Notions used to state the properties *)

(** The combos of a plan, in the order they were accepted. *)
Definition allCombos (plan : list DailyMenu) : list Combo :=
  concat (map Combos plan).

(** A combo built, with some value of the counter, from a main, a side
    and a drink of the pools that [isValidCombo] accepts. *)
Definition builtFrom (categorizedMenu : gmap string (list MenuItem))
    (minCalories maxCalories : Z) (c : Combo) : Prop :=
  exists m s dr n,
    m ∈ get_items categorizedMenu "main"
    /\ s ∈ get_items categorizedMenu "side"
    /\ dr ∈ get_items categorizedMenu "drink"
    /\ isValidCombo m s dr minCalories maxCalories f0_15 = true
    /\ c = buildCombo m s dr n.

(** The item names of a combo, and its signature (lines 169-171). *)
Definition comboNames (c : Combo) : list string := [Main c; Side c; Drink c].

Definition signatureOf (c : Combo) : string :=
  comboSignature (Main c) (Side c) (Drink c).

(** No item name occurs in two combos of the list. *)
Definition namesApart (combos : list Combo) : Prop :=
  forall (i j : nat) (ci cj : Combo) (x : string),
    combos !! i = Some ci -> combos !! j = Some cj -> i <> j ->
    x ∈ comboNames ci -> x ∉ comboNames cj.

(** [c] is the combo at position [i] of day [d]. *)
Definition comboAt (days : list (list Combo)) (d i : nat) (c : Combo) : Prop :=
  exists l, days !! d = Some l /\ l !! i = Some c.

(** What a run keeps true of the signature map: every accepted combo's
    signature is in it, with a day that is neither before the combo's
    own nor after the current one; and equal signatures are at least
    three days apart. *)
Definition signaturesTracked (days : list (list Combo)) (d : Z) (st : Store) : Prop :=
  forall d1 i1 c1,
    comboAt days d1 i1 c1 ->
    exists last, allGeneratedComboSignatures st !! signatureOf c1 = Some last
                 /\ Z.of_nat d1 <= last <= d.

Definition signaturesApart (days : list (list Combo)) : Prop :=
  forall d1 i1 c1 d2 i2 c2,
    comboAt days d1 i1 c1 -> comboAt days d2 i2 c2 -> (d1, i1) <> (d2, i2) ->
    signatureOf c1 = signatureOf c2 ->
    (d1 + 3 <= d2)%nat \/ (d2 + 3 <= d1)%nat.

(** The identifier of the [k]-th accepted combo (line 188). *)
Definition comboIdOf (k : nat) : string := "combo_" +:+ fmt_d (Z.of_nat k).

(** Two sources at the same position that deliver the same values up to
    position [hi]; stores, states of a day and results that differ in
    that way only. *)
Definition sameDraws (hi : nat) (s1 s2 : Source) : Prop :=
  used s1 = used s2 /\ forall i, (used s1 <= i < hi)%nat -> raw s1 i = raw s2 i.

Definition sameStore (hi : nat) (st1 st2 : Store) : Prop :=
  day1OverallUsedItems st1 = day1OverallUsedItems st2
  /\ allGeneratedComboSignatures st1 = allGeneratedComboSignatures st2
  /\ globalComboCounter st1 = globalComboCounter st2
  /\ sameDraws hi (randSource st1) (randSource st2).

Definition sameDay (hi : nat) (ds1 ds2 : DayState) : Prop :=
  dailyCombos ds1 = dailyCombos ds2
  /\ currentDayUsedItems ds1 = currentDayUsedItems ds2
  /\ sameStore hi (store ds1) (store ds2).

Definition sameResult {A : Type} (R : A -> A -> Prop) (r1 r2 : result A) : Prop :=
  match r1, r2 with
  | Ok a1, Ok a2 => R a1 a2
  | Panic msg1, Panic msg2 => msg1 = msg2
  | _, _ => False
  end.

(** The number of values a run may draw: three for each of the
    [maxAttemptsPerCombo] attempts of each slot of each day. *)
Definition drawsPerSlot : nat := 3 * maxAttemptsPerCombo.

Definition drawsOfRun (numDays numCombosPerDay : Z) : nat :=
  drawsPerSlot * Z.to_nat numCombosPerDay * Z.to_nat numDays.

(** The description of the taste profiles as the specification words
    it: the distinct profiles of the three items; one profile alone is
    named; otherwise the first of spicy, sweet, savory and fresh that
    is among them is named as mixed; otherwise the taste is mixed. *)
Definition recognizedProfiles : list string := ["spicy"; "sweet"; "savory"; "fresh"].

Definition describeTaste_spec (p1 p2 p3 : string) : string :=
  let distinct := remove_dups [p1; p2; p3] in
  match distinct with
  | [p] => "a " +:+ p +:+ " profile"
  | _ =>
      match List.find (fun q => bool_decide (q ∈ distinct)) recognizedProfiles with
      | Some q => "a " +:+ q +:+ " and mixed taste profile"
      | None => "a mixed taste profile"
      end
  end.

(** [x] may stand before [y] in a sorted slice: [y < x] is false. *)
Definition notAfter (x y : string) : Prop := String.ltb y x = false.

(** Two states of a day, the first generated with the first-day set and
    the second without it, that agree on all but that set; the set of
    the first holds what the day has used, that of the second is
    empty. *)
Definition day1Mirror (ds1 ds2 : DayState) : Prop :=
  dailyCombos ds1 = dailyCombos ds2
  /\ currentDayUsedItems ds1 = currentDayUsedItems ds2
  /\ day1OverallUsedItems (store ds1) = currentDayUsedItems ds1
  /\ allGeneratedComboSignatures (store ds1) = allGeneratedComboSignatures (store ds2)
  /\ globalComboCounter (store ds1) = globalComboCounter (store ds2)
  /\ randSource (store ds1) = randSource (store ds2)
  /\ day1OverallUsedItems (store ds2) = ∅.

(** ** Sample data *)

(** A source that delivers the listed values, then zeros. *)
Definition sourceOf (draws : list Z) : Source :=
  {| raw := fun i => nth i draws 0; used := 0 |}.

(** A source that delivers 0, 0, 0, then ones, and from position
    [limit] on twos when [limit] is not 0. *)
Definition sourceOnes (limit : nat) : Source :=
  {| raw := fun i => if (i <? 3)%nat then 0
                     else if (limit <=? i)%nat then (if (limit =? 0)%nat then 1 else 2)
                     else 1;
     used := 0 |}.

(** Two mains, two sides and two drinks; the scores are 8.0 and 7.9. *)
Definition sampleMenu : list MenuItem :=
  [ {| ItemName := "Veggie Burger"; Category := "main"; Calories := 500;
       TasteProfile := "savory"; PopularityScore := 8%float |};
    {| ItemName := "Fries"; Category := "side"; Calories := 150;
       TasteProfile := "savory"; PopularityScore := 0x1.f99999999999ap+2%float |};
    {| ItemName := "Water"; Category := "drink"; Calories := 0;
       TasteProfile := "fresh"; PopularityScore := 0x1.f99999999999ap+2%float |};
    {| ItemName := "Wrap"; Category := "main"; Calories := 450;
       TasteProfile := "spicy"; PopularityScore := 8%float |};
    {| ItemName := "Salad"; Category := "side"; Calories := 150;
       TasteProfile := "fresh"; PopularityScore := 8%float |};
    {| ItemName := "Tea"; Category := "drink"; Calories := 50;
       TasteProfile := "sweet"; PopularityScore := 8%float |} ].

(** Draws that fill one slot a day for a week: the combos
    Veggie Burger/Fries/Water, Wrap/Salad/Tea and Veggie Burger/Salad/Tea
    in turn. *)
Definition weekOfDraws : list Z :=
  [0; 0; 0; 1; 1; 1; 0; 1; 1; 0; 0; 0; 1; 1; 1; 0; 1; 1; 0; 0; 0].

(** A dessert that bears the name of a side. *)
Definition friesDessert : MenuItem :=
  {| ItemName := "Fries"; Category := "dessert"; Calories := 300;
     TasteProfile := "sweet"; PopularityScore := 5%float |}.

(** The examples of the specification: a main, a side and Soda, whose
    scores 8.0, 7.5 and 6.0 are too far apart for any combo; and the
    same with Water (score 7.9) for Soda. *)
Definition veggieBurger : MenuItem :=
  {| ItemName := "Veggie Burger"; Category := "main"; Calories := 500;
     TasteProfile := "savory"; PopularityScore := 8%float |}.

Definition fries : MenuItem :=
  {| ItemName := "Fries"; Category := "side"; Calories := 150;
     TasteProfile := "savory"; PopularityScore := 7.5%float |}.

Definition soda : MenuItem :=
  {| ItemName := "Soda"; Category := "drink"; Calories := 100;
     TasteProfile := "sweet"; PopularityScore := 6%float |}.

Definition water : MenuItem :=
  {| ItemName := "Water"; Category := "drink"; Calories := 0;
     TasteProfile := "fresh"; PopularityScore := 0x1.f99999999999ap+2%float |}.

Definition sodaMenu : list MenuItem := [veggieBurger; fries; soda].

(** * Properties *)

(** ** Integers *)

Lemma wrap64_id (z : Z) : is_int z -> wrap64 z = z.
Proof.
  unfold is_int, wrap64. intros H.
  rewrite Z.mod_small by lia. lia.
Qed.

Lemma int_add_exact (a b : Z) : is_int (a + b) -> int_add a b = a + b.
Proof. apply wrap64_id. Qed.

Lemma int_sub_exact (a b : Z) : is_int (a - b) -> int_sub a b = a - b.
Proof. apply wrap64_id. Qed.

Lemma maxAttemptsPerCombo_Z : Z.of_nat maxAttemptsPerCombo = 5000.
Proof. vm_compute. reflexivity. Qed.

(** ** Slices *)

Lemma index_Ok {A : Type} (xs : list A) (i : Z) :
  0 <= i < Z.of_nat (length xs) ->
  exists x, index xs i = Ok x /\ xs !! Z.to_nat i = Some x.
Proof.
  intros Hi. unfold index.
  replace ((0 <=? i) && (i <? Z.of_nat (length xs))) with true
    by (symmetry; apply andb_true_iff; split; [apply Z.leb_le | apply Z.ltb_lt]; lia).
  destruct (lookup_lt_is_Some_2 xs (Z.to_nat i)) as [x Hx]; [lia |].
  exists x. rewrite Hx. done.
Qed.

(** ** The random source *)

Lemma advance_advance (a b : nat) (src : Source) :
  advance a (advance b src) = advance (a + b) src.
Proof. unfold advance. simpl. f_equal. lia. Qed.

Lemma rand_Intn_spec (n : Z) (src : Source) :
  0 < n ->
  exists i, rand_Intn n src = Ok (i, advance 1 src) /\ 0 <= i < n.
Proof.
  intros Hn. exists (raw src (used src) mod n). unfold rand_Intn.
  replace (n <=? 0) with false by (symmetry; apply Z.leb_gt; lia).
  split; [done |]. apply Z.mod_pos_bound. lia.
Qed.

Lemma skip_skip (a b : nat) (ds : DayState) : skip a (skip b ds) = skip (a + b) ds.
Proof.
  unfold skip, with_source, set_randSource. simpl.
  by rewrite advance_advance.
Qed.

Lemma skip_0 (ds : DayState) : skip 0 ds = ds.
Proof. by destruct ds as [? ? [? ? ? []]]. Qed.

(** ** Floating-point comparisons *)

Lemma SFcompare_refl (f : spec_float) : f <> S754_nan -> SFcompare f f = Some Eq.
Proof.
  destruct f as [s | s | | s m e]; try done; intros _; simpl.
  - by destruct s.
  - rewrite Z.compare_refl.
    change (Pos.compare_cont Eq m m) with (Pos.compare m m).
    rewrite Pos.compare_refl. by destruct s.
Qed.

Lemma SFcompare_swap (f g : spec_float) :
  SFcompare g f = CompOpp <$> SFcompare f g.
Proof.
  destruct f as [s1 | s1 | | s1 m1 e1], g as [s2 | s2 | | s2 m2 e2];
    try destruct s1; try destruct s2; simpl; try done.
  all: rewrite (Z.compare_antisym e2 e1);
    change (Pos.compare_cont Eq m2 m1) with (Pos.compare m2 m1);
    change (Pos.compare_cont Eq m1 m2) with (Pos.compare m1 m2);
    rewrite (Pos.compare_antisym m2 m1);
    destruct (e2 ?= e1)%Z; simpl; try done; by destruct (m2 ?= m1)%positive.
Qed.

Lemma SFcompare_Some (f g : spec_float) :
  f <> S754_nan -> g <> S754_nan -> exists c, SFcompare f g = Some c.
Proof.
  destruct f, g; try done; intros _ _; simpl; eauto.
Qed.

Lemma SFleb_trans (f g h : spec_float) :
  SFleb f g = true -> SFleb g h = true -> SFleb f h = true.
Proof.
  unfold SFleb.
  destruct f as [s1 | s1 | | s1 m1 e1], g as [s2 | s2 | | s2 m2 e2],
    h as [s3 | s3 | | s3 m3 e3];
    try destruct s1; try destruct s2; try destruct s3; simpl; try done.
  all: change (Pos.compare_cont Eq m1 m2) with (Pos.compare m1 m2);
    change (Pos.compare_cont Eq m2 m3) with (Pos.compare m2 m3);
    change (Pos.compare_cont Eq m1 m3) with (Pos.compare m1 m3).
  all: destruct (Z.compare_spec e1 e2); try done;
    destruct (Z.compare_spec e2 e3); try done;
    destruct (Z.compare_spec e1 e3); try done; try lia; subst.
  all: destruct (Pos.compare_spec m1 m2); try done;
    destruct (Pos.compare_spec m2 m3); try done;
    destruct (Pos.compare_spec m1 m3); try done; lia.
Qed.

Lemma is_nan_false (x : float) : PrimFloat.is_nan x = false <-> Prim2SF x <> S754_nan.
Proof.
  unfold PrimFloat.is_nan. rewrite FloatAxioms.eqb_spec. unfold SFeqb. split.
  - intros H E. rewrite E in H. done.
  - intros H. rewrite (SFcompare_refl _ H). done.
Qed.

Lemma float_leb_refl (x : float) : PrimFloat.is_nan x = false -> PrimFloat.leb x x = true.
Proof.
  intros H. rewrite FloatAxioms.leb_spec. unfold SFleb.
  apply is_nan_false in H. by rewrite (SFcompare_refl _ H).
Qed.

Lemma float_ltb_leb (x y : float) : PrimFloat.ltb x y = true -> PrimFloat.leb x y = true.
Proof.
  rewrite FloatAxioms.ltb_spec, FloatAxioms.leb_spec. unfold SFltb, SFleb.
  by destruct (SFcompare _ _) as [[] |].
Qed.

Lemma float_not_ltb_leb (x y : float) :
  PrimFloat.is_nan x = false -> PrimFloat.is_nan y = false ->
  PrimFloat.ltb x y = false -> PrimFloat.leb y x = true.
Proof.
  intros Hx%is_nan_false Hy%is_nan_false.
  rewrite FloatAxioms.ltb_spec, FloatAxioms.leb_spec. unfold SFltb, SFleb.
  rewrite (SFcompare_swap (Prim2SF x) (Prim2SF y)).
  destruct (SFcompare_Some _ _ Hx Hy) as [c ->]. by destruct c.
Qed.

Lemma float_leb_trans (x y z : float) :
  PrimFloat.leb x y = true -> PrimFloat.leb y z = true -> PrimFloat.leb x z = true.
Proof. rewrite !FloatAxioms.leb_spec. apply SFleb_trans. Qed.

Ltac solve_elem_of :=
  repeat first [apply list_elem_of_here | apply list_elem_of_further].

Ltac elem_of_cases :=
  repeat match goal with
    | H : _ ∈ _ :: _ |- _ => apply elem_of_cons in H as [H | H]
    | H : _ ∈ [] |- _ => by apply elem_of_nil in H
    | H : ¬ (_ ∈ _ :: _) |- _ => apply not_elem_of_cons in H as [? H]
    | H : ¬ (_ ∈ []) |- _ => clear H
    end.

Ltac solve_same_elements :=
  intros ?; rewrite !elem_of_cons, !elem_of_nil; tauto.

(** [sort.Float64s] on the three scores of a combo: the result is a
    rearrangement, in increasing order when no score is a NaN. *)
Lemma sort_Float64s_3 (a b c : float) :
  exists lo mid hi,
    sort_Float64s [a; b; c] = [lo; mid; hi]
    /\ (forall x, x ∈ [a; b; c] <-> x ∈ [lo; mid; hi])
    /\ (PrimFloat.is_nan a = false -> PrimFloat.is_nan b = false ->
        PrimFloat.is_nan c = false ->
        PrimFloat.leb lo mid = true /\ PrimFloat.leb mid hi = true).
Proof.
  assert (Hless : forall x y, PrimFloat.is_nan x = false ->
                    float_less x y = PrimFloat.ltb x y).
  { intros x y Hx. unfold float_less. rewrite Hx. simpl. apply orb_false_r. }
  unfold sort_Float64s, insertion_sort. simpl.
  destruct (float_less b a) eqn:Hba; simpl.
  - destruct (float_less c a) eqn:Hca; simpl.
    + destruct (float_less c b) eqn:Hcb; simpl.
      * exists c, b, a. split; [done |]. split; [solve_same_elements |].
        intros Ha Hb Hc. rewrite Hless in Hba, Hcb by done.
        split; by apply float_ltb_leb.
      * exists b, c, a. split; [done |]. split; [solve_same_elements |].
        intros Ha Hb Hc. rewrite Hless in Hca, Hcb by done.
        split; [by apply float_not_ltb_leb | by apply float_ltb_leb].
    + exists b, a, c. split; [done |]. split; [solve_same_elements |].
      intros Ha Hb Hc. rewrite Hless in Hba, Hca by done.
      split; [by apply float_ltb_leb | by apply float_not_ltb_leb].
  - destruct (float_less c b) eqn:Hcb; simpl.
    + destruct (float_less c a) eqn:Hca; simpl.
      * exists c, a, b. split; [done |]. split; [solve_same_elements |].
        intros Ha Hb Hc. rewrite Hless in Hba, Hca by done.
        split; [by apply float_ltb_leb | by apply float_not_ltb_leb].
      * exists a, c, b. split; [done |]. split; [solve_same_elements |].
        intros Ha Hb Hc. rewrite Hless in Hca, Hcb by done.
        split; [by apply float_not_ltb_leb | by apply float_ltb_leb].
    + exists a, b, c. split; [done |]. split; [solve_same_elements |].
      intros Ha Hb Hc. rewrite Hless in Hba, Hcb by done.
      split; by apply float_not_ltb_leb.
Qed.

(** ** [isValidCombo] *)

(** What [isValidCombo] decides: the total of the calories lies in the
    band, and the highest score less the lowest one is not above the
    tolerance. *)
Lemma isValidCombo_true (main side drink : MenuItem) (minCalories maxCalories : Z)
    (popularityTolerance : float) :
  isValidCombo main side drink minCalories maxCalories popularityTolerance = true ->
  minCalories <= fst (calculateComboMetrics main side drink) <= maxCalories
  /\ exists lo hi,
      lo ∈ popularityScores main side drink
      /\ hi ∈ popularityScores main side drink
      /\ PrimFloat.ltb popularityTolerance (PrimFloat.sub hi lo) = false
      /\ ((forall x, x ∈ popularityScores main side drink -> PrimFloat.is_nan x = false) ->
          forall x, x ∈ popularityScores main side drink ->
                    PrimFloat.leb lo x = true /\ PrimFloat.leb x hi = true).
Proof.
  unfold isValidCombo.
  destruct (_ && _) eqn:Hband; simpl; [| done].
  apply andb_true_iff in Hband as [H1%Z.leb_le H2%Z.leb_le].
  fold (popularityScores main side drink). unfold popularityScores.
  destruct (sort_Float64s_3 (PopularityScore main) (PopularityScore side)
              (PopularityScore drink)) as (lo & mid & hi & -> & Hperm & Hord).
  simpl. destruct (PrimFloat.ltb _ _) eqn:Hspread; [done |]. intros _.
  split; [done |]. exists lo, hi.
  split; [apply Hperm; solve_elem_of |]. split; [apply Hperm; solve_elem_of |].
  split; [done |]. intros Hnan x Hx.
  destruct Hord as [Hlm Hmh]; [apply Hnan; solve_elem_of .. |].
  assert (Hnan' : forall y, y ∈ [lo; mid; hi] -> PrimFloat.is_nan y = false)
    by (intros y Hy; apply Hnan, Hperm, Hy).
  pose proof (float_leb_trans _ _ _ Hlm Hmh) as Hlh.
  apply Hperm in Hx.
  apply elem_of_cons in Hx as [-> | Hx];
    [split; [apply float_leb_refl, Hnan'; solve_elem_of | done] |].
  apply elem_of_cons in Hx as [-> | Hx]; [done |].
  apply list_elem_of_singleton in Hx as ->.
  split; [done | apply float_leb_refl, Hnan'; solve_elem_of].
Qed.

(** ** [categorizeMenu] *)

Lemma get_items_insert (categorized : gmap string (list MenuItem)) (k k' : string)
    (xs : list MenuItem) :
  get_items (<[k := xs]> categorized) k'
  = if decide (k = k') then xs else get_items categorized k'.
Proof. unfold get_items. rewrite lookup_insert. by case_decide. Qed.

(** The pool of a category holds the items of that category, in the
    order of the catalog. *)
Lemma get_items_categorizeMenu (items : list MenuItem) (k : string) :
  get_items (categorizeMenu items) k = filter (fun item => Category item = k) items.
Proof.
  unfold categorizeMenu.
  assert (H : forall acc,
             get_items (fold_left
               (fun categorized item =>
                  <[Category item := get_items categorized (Category item) ++ [item]]>
                    categorized) items acc) k
             = get_items acc k ++ filter (fun item => Category item = k) items).
  { induction items as [| x items IH]; intros acc; simpl.
    - by rewrite app_nil_r.
    - rewrite IH, get_items_insert, filter_cons.
      destruct (decide (Category x = k)) as [-> | Hne]; [| done].
      by rewrite <- app_assoc. }
  rewrite H. done.
Qed.

Lemma elem_of_pool (items : list MenuItem) (k : string) (x : MenuItem) :
  x ∈ get_items (categorizeMenu items) k <-> x ∈ items /\ Category x = k.
Proof. rewrite get_items_categorizeMenu, list_elem_of_filter. tauto. Qed.

(** ** One attempt, and the attempts of a slot *)

Section SamplerFacts.
Variables mains sides drinks : list MenuItem.
Variables minCalories maxCalories : Z.
Variable usedItemsForDay1 : MapPtr.
Variable currentDayIndex : Z.
Hypothesis mains_nonempty : mains <> [].
Hypothesis sides_nonempty : sides <> [].
Hypothesis drinks_nonempty : drinks <> [].

Abbreviation attempt_ := (attempt mains sides drinks minCalories maxCalories
                       usedItemsForDay1 currentDayIndex).
Abbreviation attemptLoop_ := (attemptLoop mains sides drinks minCalories maxCalories
                           usedItemsForDay1 currentDayIndex).
Abbreviation slotLoop_ := (slotLoop mains sides drinks minCalories maxCalories
                        usedItemsForDay1 currentDayIndex).
Abbreviation acceptCombo_ := (acceptCombo usedItemsForDay1 currentDayIndex).
Abbreviation accepts_ := (accepts minCalories maxCalories usedItemsForDay1 currentDayIndex).

Lemma drawItems_spec (src : Source) :
  exists m s d,
    drawItems mains sides drinks src = Ok (m, s, d, advance 3 src)
    /\ m ∈ mains /\ s ∈ sides /\ d ∈ drinks.
Proof.
  assert (Hlen : forall xs : list MenuItem, xs <> [] -> 0 < Z.of_nat (length xs))
    by (intros [|? ?] ?; [done | simpl; lia]).
  unfold drawItems.
  destruct (rand_Intn_spec _ src (Hlen _ mains_nonempty)) as (i & -> & Hi).
  destruct (index_Ok mains i Hi) as (m & Hmi & Hm). simpl. rewrite Hmi. simpl.
  destruct (rand_Intn_spec _ (advance 1 src) (Hlen _ sides_nonempty)) as (j & -> & Hj).
  destruct (index_Ok sides j Hj) as (s & Hsj & Hs). simpl. rewrite Hsj. simpl.
  destruct (rand_Intn_spec _ (advance 1 (advance 1 src)) (Hlen _ drinks_nonempty))
    as (k & -> & Hk).
  destruct (index_Ok drinks k Hk) as (d & Hdk & Hd). simpl. rewrite Hdk. simpl.
  exists m, s, d. rewrite !advance_advance. simpl.
  repeat split; [| | ]; eapply list_elem_of_lookup_2; eassumption.
Qed.

(** An attempt_ never panics: it draws three items of the pools, and
    either accepts_ them or only consumes three values of the source. *)
Lemma attempt_spec (ds : DayState) :
  exists m s d,
    m ∈ mains /\ s ∈ sides /\ d ∈ drinks
    /\ attempt_ ds =
         Ok (if accepts_ (currentDayUsedItems ds) (store ds) m s d
             then (true, acceptCombo_ m s d (skip 3 ds))
             else (false, skip 3 ds)).
Proof.
  destruct (drawItems_spec (randSource (store ds))) as (m & s & d & Hdraw & Hm & Hs & Hd).
  exists m, s, d. repeat split; try done.
  unfold attempt. rewrite Hdraw. simpl.
  change (accepts_ (currentDayUsedItems ds)
            (set_randSource (advance 3 (randSource (store ds))) (store ds)) m s d)
    with (accepts_ (currentDayUsedItems ds) (store ds) m s d).
  by destruct (accepts_ _ _ m s d).
Qed.

(** The attempts of one slot: either all [remaining] attempts are
    rejected, and only the source has moved, or the [k]-th one is
    accepted. *)
Lemma attemptLoop_spec (remaining : nat) (attempts : Z) (ds : DayState) :
  0 <= attempts -> attempts + Z.of_nat remaining < 2 ^ 63 ->
  attemptLoop_ remaining attempts ds
    = Ok (attempts + Z.of_nat remaining, false, skip (3 * remaining) ds)
  \/ exists (k : nat) m s d,
       (1 <= k <= remaining)%nat
       /\ m ∈ mains /\ s ∈ sides /\ d ∈ drinks
       /\ accepts_ (currentDayUsedItems ds) (store ds) m s d = true
       /\ attemptLoop_ remaining attempts ds
          = Ok (attempts + Z.of_nat k, true, acceptCombo_ m s d (skip (3 * k) ds)).
Proof.
  revert attempts ds.
  induction remaining as [| n IH]; intros attempts ds H0 Hmax.
  - left. simpl. rewrite skip_0. unfold mret, result_ret. do 3 f_equal. lia.
  - simpl attemptLoop.
    rewrite int_add_exact by (unfold is_int; lia).
    destruct (attempt_spec ds) as (m & s & d & Hm & Hs & Hd & ->).
    destruct (accepts_ (currentDayUsedItems ds) (store ds) m s d) eqn:Hacc.
    + right. exists 1%nat, m, s, d. simpl.
      repeat split; try done; lia.
    + simpl.
      destruct (IH (attempts + 1) (skip 3 ds)) as [-> | (k & m' & s' & d' & Hk & ? & ? & ? & Hacc' & ->)];
        [lia | lia | |].
      * left. rewrite skip_skip.
        replace (3 * n + 3)%nat with (3 * S n)%nat by lia.
        replace (attempts + 1 + Z.of_nat n) with (attempts + Z.of_nat (S n)) by lia.
        done.
      * right. exists (S k), m', s', d'. rewrite skip_skip.
        replace (3 * k + 3)%nat with (3 * S k)%nat by lia.
        replace (attempts + 1 + Z.of_nat k) with (attempts + Z.of_nat (S k)) by lia.
        repeat split; try done; lia.
Qed.

Lemma slotLoop_S (remaining : nat) (ds : DayState) :
  slotLoop_ (S remaining) ds
  = '(_, comboFound, ds) ← attemptLoop_ maxAttemptsPerCombo 0 ds;
    if comboFound : bool then slotLoop_ remaining ds else mret ds.
Proof. reflexivity. Qed.

(** A rule for the loop over the slots: a property of the day's state
    that does not mention the source and that every accepted draw
    preserves holds when the loop ends; the loop never panics. *)
Lemma slotLoop_rule (I : DayState -> Prop) :
  (forall ds src, I ds -> I (with_source src ds)) ->
  (forall ds m s d,
      I ds -> m ∈ mains -> s ∈ sides -> d ∈ drinks ->
      accepts_ (currentDayUsedItems ds) (store ds) m s d = true ->
      I (acceptCombo_ m s d ds)) ->
  forall (remaining : nat) (ds : DayState),
    I ds -> exists ds', slotLoop_ remaining ds = Ok ds' /\ I ds'.
Proof.
  intros Hsrc Hacc. induction remaining as [| n IH]; intros ds HI.
  - exists ds. done.
  - rewrite slotLoop_S.
    destruct (attemptLoop_spec maxAttemptsPerCombo 0 ds)
      as [-> | (k & m & s & d & Hk & Hm & Hs & Hd & Ha & ->)];
      [lia | rewrite maxAttemptsPerCombo_Z; lia | |].
    + eexists. split; [reflexivity |]. by apply Hsrc.
    + change (exists ds', slotLoop_ n (acceptCombo_ m s d (skip (3 * k) ds)) = Ok ds' /\ I ds').
      apply IH. apply Hacc; try done. by apply Hsrc.
Qed.
End SamplerFacts.

(** ** The loop over the days *)

Section WeekRule.
Variable categorizedMenu : gmap string (list MenuItem).
Variables numCombosPerDay minCalories maxCalories : Z.

Abbreviation generateDay_ :=
  (generateDay categorizedMenu numCombosPerDay minCalories maxCalories).
Abbreviation dayLoop_ :=
  (dayLoop categorizedMenu numCombosPerDay minCalories maxCalories).

Lemma generateDay_out_of_range (dayIndex : Z) (plan : list DailyMenu) (st : Store) :
  7 <= dayIndex -> generateDay_ dayIndex plan st = Panic "index out of range".
Proof.
  intros H. unfold generateDay, index.
  replace (dayIndex <? Z.of_nat (length dayNames)) with false
    by (symmetry; apply Z.ltb_ge; simpl; lia).
  by rewrite andb_false_r.
Qed.

(** A run that returns has asked for at most seven days. *)
Lemma dayLoop_Ok_inv (remaining : nat) (dayIndex : Z) (plan : list DailyMenu)
    (st : Store) r :
  0 <= dayIndex -> dayLoop_ remaining dayIndex plan st = Ok r ->
  dayIndex + Z.of_nat remaining <= 7 \/ remaining = 0%nat.
Proof.
  revert dayIndex plan st. induction remaining as [| n IH]; intros d plan st Hd H.
  - by right.
  - left. simpl in H.
    destruct (Z_lt_le_dec d 7) as [Hlt | Hge];
      [| by rewrite generateDay_out_of_range in H].
    destruct (generateDay_ d plan st) as [[plan1 st1] |]; [| done]. simpl in H.
    rewrite int_add_exact in H by (unfold is_int; lia).
    apply IH in H; lia.
Qed.

(** The invariant of a run: [K plan d ds] speaks of the days already
    in the plan, the index [d] of the day being generated and that
    day's state. *)
Variable K : list DailyMenu -> Z -> DayState -> Prop.

Hypothesis K_source : forall plan d ds src,
  K plan d ds -> K plan d (with_source src ds).

Hypothesis K_accept : forall plan d ds m s dr,
  0 <= d < 7 -> K plan d ds ->
  m ∈ get_items categorizedMenu "main" ->
  s ∈ get_items categorizedMenu "side" ->
  dr ∈ get_items categorizedMenu "drink" ->
  accepts minCalories maxCalories (trackerFor d) d
    (currentDayUsedItems ds) (store ds) m s dr = true ->
  K plan d (acceptCombo (trackerFor d) d m s dr ds).

Hypothesis K_day : forall plan d ds name,
  0 <= d < 7 -> K plan d ds -> dayNames !! Z.to_nat d = Some name ->
  K (plan ++ [{| Day := name; Combos := dailyCombos ds |}]) (d + 1)
    (freshDay (store ds)).

Lemma generateDailyCombos_rule (plan : list DailyMenu) (d : Z) (st : Store) :
  0 <= d < 7 -> K plan d (freshDay st) ->
  exists ds, generateDailyCombos categorizedMenu numCombosPerDay minCalories
               maxCalories (trackerFor d) d st = Ok (dailyCombos ds, store ds)
             /\ K plan d ds.
Proof.
  intros Hd HK. unfold generateDailyCombos.
  destruct (get_items categorizedMenu "main") as [| m0 ms] eqn:Em;
    [by exists (freshDay st) |].
  destruct (get_items categorizedMenu "side") as [| s0 ss] eqn:Es;
    [by exists (freshDay st) |].
  destruct (get_items categorizedMenu "drink") as [| d0 dd] eqn:Ed;
    [by exists (freshDay st) |].
  simpl orb. cbv iota.
  destruct (slotLoop_rule (m0 :: ms) (s0 :: ss) (d0 :: dd) minCalories maxCalories
              (trackerFor d) d ltac:(done) ltac:(done) ltac:(done) (K plan d))
    with (remaining := Z.to_nat numCombosPerDay) (ds := freshDay st)
    as (ds & -> & HK'); try done.
  - intros. by apply K_source.
  - intros ds m s dr ? ? ? ? ?. apply K_accept; try done; by rewrite ?Em, ?Es, ?Ed.
  - by exists ds.
Qed.

Lemma generateDay_rule (plan : list DailyMenu) (d : Z) (st : Store) :
  0 <= d < 7 -> K plan d (freshDay st) ->
  exists plan' st', generateDay_ d plan st = Ok (plan', st')
                    /\ K plan' (d + 1) (freshDay st').
Proof.
  intros Hd HK. unfold generateDay.
  destruct (index_Ok dayNames d) as (name & -> & Hname); [simpl; lia |].
  destruct (generateDailyCombos_rule plan d st Hd HK) as (ds & Hgen & HK').
  simpl. rewrite Hgen. simpl.
  eexists _, _. split; [done |]. by apply K_day.
Qed.

(** A run over at most seven days never panics, and keeps [K]. *)
Lemma dayLoop_rule (remaining : nat) (d : Z) (plan : list DailyMenu) (st : Store) :
  0 <= d -> d + Z.of_nat remaining <= 7 -> K plan d (freshDay st) ->
  exists plan' st', dayLoop_ remaining d plan st = Ok (plan', st')
                    /\ K plan' (d + Z.of_nat remaining) (freshDay st').
Proof.
  revert d plan st. induction remaining as [| n IH]; intros d plan st Hd Hn HK.
  - exists plan, st. rewrite Z.add_0_r. done.
  - simpl dayLoop.
    destruct (generateDay_rule plan d st) as (plan1 & st1 & -> & HK1); [lia | done |].
    simpl. rewrite int_add_exact by (unfold is_int; lia).
    destruct (IH (d + 1) plan1 st1) as (plan' & st' & -> & HK'); [lia | lia | done |].
    exists plan', st'. split; [done |].
    by replace (d + Z.of_nat (S n)) with (d + 1 + Z.of_nat n) by lia.
Qed.
End WeekRule.

(** The rule for a whole run. *)
Lemma runWeek_rule (K : list DailyMenu -> Z -> DayState -> Prop)
    (masterMenu : list MenuItem) (numDays numCombosPerDay minCalories maxCalories : Z)
    (seeded : Source) :
  (forall plan d ds src, K plan d ds -> K plan d (with_source src ds)) ->
  (forall plan d ds m s dr,
      0 <= d < 7 -> K plan d ds ->
      m ∈ get_items (categorizeMenu masterMenu) "main" ->
      s ∈ get_items (categorizeMenu masterMenu) "side" ->
      dr ∈ get_items (categorizeMenu masterMenu) "drink" ->
      accepts minCalories maxCalories (trackerFor d) d
        (currentDayUsedItems ds) (store ds) m s dr = true ->
      K plan d (acceptCombo (trackerFor d) d m s dr ds)) ->
  (forall plan d ds name,
      0 <= d < 7 -> K plan d ds -> dayNames !! Z.to_nat d = Some name ->
      K (plan ++ [{| Day := name; Combos := dailyCombos ds |}]) (d + 1)
        (freshDay (store ds))) ->
  K [] 0 (freshDay (initialStore seeded)) ->
  forall plan st,
    runWeek masterMenu numDays numCombosPerDay minCalories maxCalories seeded
      = Ok (plan, st) ->
    K plan (Z.of_nat (Z.to_nat numDays)) (freshDay st).
Proof.
  intros Hsrc Hacc Hday H0 plan st Hrun. unfold runWeek in Hrun.
  destruct (dayLoop_Ok_inv _ _ _ _ _ _ _ _ _ (Z.le_refl 0) Hrun) as [Hle | Hz].
  - destruct (dayLoop_rule (categorizeMenu masterMenu) numCombosPerDay minCalories
                maxCalories K Hsrc Hacc Hday (Z.to_nat numDays) 0 [] (initialStore seeded))
      as (plan' & st' & Hrun' & HK); [lia | lia | done |].
    rewrite Hrun in Hrun'. by injection Hrun' as -> ->.
  - rewrite Hz in *. simpl in Hrun. by injection Hrun as <- <-.
Qed.

Lemma generateMenuSuggestions_Ok (masterMenu : list MenuItem)
    (numDays numCombosPerDay minCalories maxCalories : Z) (seeded : Source)
    (plan : MenuPlan) :
  generateMenuSuggestions masterMenu numDays numCombosPerDay minCalories maxCalories seeded
    = Ok plan ->
  exists st, runWeek masterMenu numDays numCombosPerDay minCalories maxCalories seeded
             = Ok (MenuPlan_MenuPlan plan, st).
Proof.
  unfold generateMenuSuggestions.
  destruct (runWeek _ _ _ _ _ _) as [[days st] |]; [| done].
  simpl. intros [= <-]. by exists st.
Qed.

(** ** The combos of a plan *)

Lemma allCombos_app (plan plan' : list DailyMenu) :
  allCombos (plan ++ plan') = allCombos plan ++ allCombos plan'.
Proof. unfold allCombos. by rewrite map_app, concat_app. Qed.

Lemma allCombos_snoc (plan : list DailyMenu) (day : DailyMenu) :
  allCombos (plan ++ [day]) = allCombos plan ++ Combos day.
Proof. rewrite allCombos_app. unfold allCombos. simpl. by rewrite app_nil_r. Qed.

Lemma elem_of_allCombos (plan : list DailyMenu) (i j : nat) (day : DailyMenu) (c : Combo) :
  plan !! i = Some day -> Combos day !! j = Some c -> c ∈ allCombos plan.
Proof.
  intros Hday Hc. unfold allCombos. apply list_elem_of_In, in_concat.
  exists (Combos day). split.
  - apply in_map, list_elem_of_In. by eapply list_elem_of_lookup_2.
  - apply list_elem_of_In. by eapply list_elem_of_lookup_2.
Qed.

(** Every combo of a plan was built from a main, a side and a drink of
    the pools that [isValidCombo] accepts. *)
Lemma plan_combos_built (masterMenu : list MenuItem)
    (numDays numCombosPerDay minCalories maxCalories : Z) (seeded : Source)
    (plan : list DailyMenu) (st : Store) :
  runWeek masterMenu numDays numCombosPerDay minCalories maxCalories seeded
    = Ok (plan, st) ->
  Forall (builtFrom (categorizeMenu masterMenu) minCalories maxCalories) (allCombos plan).
Proof.
  intros Hrun.
  pose (K := fun (plan : list DailyMenu) (_ : Z) (ds : DayState) =>
               Forall (builtFrom (categorizeMenu masterMenu) minCalories maxCalories)
                 (allCombos plan ++ dailyCombos ds)).
  enough (HK : K plan (Z.of_nat (Z.to_nat numDays)) (freshDay st))
    by (unfold K in HK; simpl in HK; by rewrite app_nil_r in HK).
  eapply (runWeek_rule K); [| | | | exact Hrun]; unfold K.
  - done.
  - intros plan0 d ds m s dr _ HK Hm Hs Hdr Hacc. simpl.
    rewrite app_assoc. apply Forall_app. split; [done |].
    apply Forall_singleton. exists m, s, dr, (int_add (globalComboCounter (store ds)) 1).
    unfold accepts in Hacc. apply andb_true_iff in Hacc as [_ Hvalid]. done.
  - intros plan0 d ds name _ HK _. simpl.
    by rewrite allCombos_snoc, app_nil_r.
  - by apply Forall_nil.
Qed.

(** C1: every accepted combo of a generated plan is made of a main, a
    side and a drink of the catalog whose calories, summed as Go sums
    them, lie in [[minCalories, maxCalories]], and whose highest
    popularity score less the lowest one does not exceed the tolerance
    0.15.  The Go sum is the exact sum when that fits in an [int]; the
    highest and lowest scores bound all three when none is a NaN. *)
Theorem accepted_combo_is_valid (masterMenu : list MenuItem)
    (numDays numCombosPerDay minCalories maxCalories : Z) (seeded : Source)
    (plan : MenuPlan) (i j : nat) (day : DailyMenu) (c : Combo) :
  generateMenuSuggestions masterMenu numDays numCombosPerDay minCalories maxCalories seeded
    = Ok plan ->
  MenuPlan_MenuPlan plan !! i = Some day ->
  Combos day !! j = Some c ->
  exists m s dr,
    (m ∈ masterMenu /\ s ∈ masterMenu /\ dr ∈ masterMenu)
    /\ (Category m = "main" /\ Category s = "side" /\ Category dr = "drink")
    /\ (Main c = ItemName m /\ Side c = ItemName s /\ Drink c = ItemName dr)
    /\ CalorieCount c = int_add (int_add (Calories m) (Calories s)) (Calories dr)
    /\ (is_int (Calories m + Calories s) ->
        is_int (Calories m + Calories s + Calories dr) ->
        CalorieCount c = Calories m + Calories s + Calories dr)
    /\ minCalories <= CalorieCount c <= maxCalories
    /\ exists lo hi,
        lo ∈ popularityScores m s dr
        /\ hi ∈ popularityScores m s dr
        /\ PrimFloat.ltb f0_15 (PrimFloat.sub hi lo) = false
        /\ ((forall x, x ∈ popularityScores m s dr -> PrimFloat.is_nan x = false) ->
            forall x, x ∈ popularityScores m s dr ->
                      PrimFloat.leb lo x = true /\ PrimFloat.leb x hi = true).
Proof.
  intros [st Hrun]%generateMenuSuggestions_Ok Hday Hc.
  pose proof (plan_combos_built _ _ _ _ _ _ _ _ Hrun) as Hall.
  rewrite Forall_forall in Hall.
  destruct (Hall c (elem_of_allCombos _ _ _ _ _ Hday Hc))
    as (m & s & dr & n & Hm & Hs & Hdr & Hvalid & ->).
  apply elem_of_pool in Hm as [Hm Hcm], Hs as [Hs Hcs], Hdr as [Hdr Hcd].
  apply isValidCombo_true in Hvalid as [Hband Hspread].
  exists m, s, dr. repeat split; try done; try apply Hband.
  simpl. intros H1 H2. by rewrite (int_add_exact _ _ H1), (int_add_exact _ _ H2).
Qed.

Lemma accepted_combo_is_valid_witness :
  exists plan day c,
    generateMenuSuggestions sampleMenu 1 2 550 800 (sourceOf [0; 0; 0; 1; 1; 1]) = Ok plan
    /\ MenuPlan_MenuPlan plan !! 1%nat = None
    /\ MenuPlan_MenuPlan plan !! 0%nat = Some day
    /\ Combos day !! 1%nat = Some c
    /\ exists m s dr,
        (m ∈ sampleMenu /\ s ∈ sampleMenu /\ dr ∈ sampleMenu)
        /\ (Category m = "main" /\ Category s = "side" /\ Category dr = "drink")
        /\ (Main c = ItemName m /\ Side c = ItemName s /\ Drink c = ItemName dr)
        /\ CalorieCount c = int_add (int_add (Calories m) (Calories s)) (Calories dr)
        /\ (is_int (Calories m + Calories s) ->
            is_int (Calories m + Calories s + Calories dr) ->
            CalorieCount c = Calories m + Calories s + Calories dr)
        /\ 550 <= CalorieCount c <= 800
        /\ exists lo hi,
            lo ∈ popularityScores m s dr
            /\ hi ∈ popularityScores m s dr
            /\ PrimFloat.ltb f0_15 (PrimFloat.sub hi lo) = false
            /\ ((forall x, x ∈ popularityScores m s dr -> PrimFloat.is_nan x = false) ->
                forall x, x ∈ popularityScores m s dr ->
                          PrimFloat.leb lo x = true /\ PrimFloat.leb x hi = true).
Proof.
  eexists _, _, _.
  split; [vm_compute; reflexivity |].
  split; [reflexivity |]. split; [reflexivity |]. split; [reflexivity |].
  eapply (accepted_combo_is_valid sampleMenu 1 2 550 800 (sourceOf [0; 0; 0; 1; 1; 1])
           _ 0%nat 1%nat _ _);
    [vm_compute; reflexivity | reflexivity | reflexivity].
Defined.

(** ** The pools *)

(** C10, as the code has it: the three names of every accepted combo
    are the names of catalog items whose category is exactly "main",
    "side" and "drink"; an item of another category is never drawn. *)
Theorem combo_names_come_from_the_pools (masterMenu : list MenuItem)
    (numDays numCombosPerDay minCalories maxCalories : Z) (seeded : Source)
    (plan : MenuPlan) (i j : nat) (day : DailyMenu) (c : Combo) :
  generateMenuSuggestions masterMenu numDays numCombosPerDay minCalories maxCalories seeded
    = Ok plan ->
  MenuPlan_MenuPlan plan !! i = Some day ->
  Combos day !! j = Some c ->
  (exists m, m ∈ masterMenu /\ Category m = "main" /\ Main c = ItemName m)
  /\ (exists s, s ∈ masterMenu /\ Category s = "side" /\ Side c = ItemName s)
  /\ (exists dr, dr ∈ masterMenu /\ Category dr = "drink" /\ Drink c = ItemName dr).
Proof.
  intros [st Hrun]%generateMenuSuggestions_Ok Hday Hc.
  pose proof (plan_combos_built _ _ _ _ _ _ _ _ Hrun) as Hall.
  rewrite Forall_forall in Hall.
  destruct (Hall c (elem_of_allCombos _ _ _ _ _ Hday Hc))
    as (m & s & dr & n & Hm & Hs & Hdr & _ & ->).
  apply elem_of_pool in Hm as [Hm Hcm], Hs as [Hs Hcs], Hdr as [Hdr Hcd].
  split; [by exists m |]. split; [by exists s | by exists dr].
Qed.

Lemma combo_names_come_from_the_pools_witness :
  exists plan day c,
    generateMenuSuggestions (sampleMenu ++ [friesDessert]) 1 1 550 800 (sourceOf []) = Ok plan
    /\ MenuPlan_MenuPlan plan !! 0%nat = Some day
    /\ Combos day !! 0%nat = Some c
    /\ (exists m, m ∈ sampleMenu ++ [friesDessert] /\ Category m = "main"
                  /\ Main c = ItemName m)
    /\ (exists s, s ∈ sampleMenu ++ [friesDessert] /\ Category s = "side"
                  /\ Side c = ItemName s)
    /\ (exists dr, dr ∈ sampleMenu ++ [friesDessert] /\ Category dr = "drink"
                   /\ Drink c = ItemName dr).
Proof.
  eexists _, _, _.
  split; [vm_compute; reflexivity |]. split; [reflexivity |]. split; [reflexivity |].
  eapply (combo_names_come_from_the_pools (sampleMenu ++ [friesDessert]) 1 1 550 800
           (sourceOf []) _ 0%nat 0%nat _ _);
    [vm_compute; reflexivity | reflexivity | reflexivity].
Defined.

(** C10 as stated fails: the name of an item of another category does
    appear in an accepted combo when an item of a pool bears it too. *)
Lemma excluded_item_name_appears :
  ~ (forall (masterMenu : list MenuItem)
       (numDays numCombosPerDay minCalories maxCalories : Z) (seeded : Source)
       (plan : MenuPlan) (i j : nat) (day : DailyMenu) (c : Combo) (item : MenuItem),
        generateMenuSuggestions masterMenu numDays numCombosPerDay minCalories
          maxCalories seeded = Ok plan ->
        MenuPlan_MenuPlan plan !! i = Some day ->
        Combos day !! j = Some c ->
        item ∈ masterMenu ->
        Category item <> "main" -> Category item <> "side" -> Category item <> "drink" ->
        ItemName item <> Main c /\ ItemName item <> Side c /\ ItemName item <> Drink c).
Proof.
  intros H.
  assert (E : exists plan day c,
             generateMenuSuggestions (sampleMenu ++ [friesDessert]) 1 1 550 800
               (sourceOf []) = Ok plan
             /\ MenuPlan_MenuPlan plan !! 0%nat = Some day
             /\ Combos day !! 0%nat = Some c
             /\ Side c = "Fries").
  { eexists _, _, _. split; [vm_compute; reflexivity |]. by repeat split. }
  destruct E as (plan & day & c & Hgen & Hday & Hc & Hside).
  destruct (H _ _ _ _ _ _ _ _ _ _ _ friesDessert Hgen Hday Hc) as (_ & Hne & _);
    [unfold sampleMenu; solve_elem_of | done | done | done |].
  by rewrite Hside in Hne.
Qed.

(** ** An empty pool *)

(** C6: when a pool of the categorized catalog is empty, the day has no
    combo, and the shared objects, the identifier counter among them,
    are left as they were. *)
Theorem empty_pool_gives_empty_day (categorizedMenu : gmap string (list MenuItem))
    (numCombosPerDay minCalories maxCalories : Z) (usedItemsForDay1 : MapPtr)
    (currentDayIndex : Z) (st : Store) :
  get_items categorizedMenu "main" = []
  \/ get_items categorizedMenu "side" = []
  \/ get_items categorizedMenu "drink" = [] ->
  generateDailyCombos categorizedMenu numCombosPerDay minCalories maxCalories
    usedItemsForDay1 currentDayIndex st = Ok ([], st)
  /\ forall combos st',
      generateDailyCombos categorizedMenu numCombosPerDay minCalories maxCalories
        usedItemsForDay1 currentDayIndex st = Ok (combos, st') ->
      combos = [] /\ globalComboCounter st' = globalComboCounter st.
Proof.
  intros Hempty.
  assert (Hgen : generateDailyCombos categorizedMenu numCombosPerDay minCalories
                   maxCalories usedItemsForDay1 currentDayIndex st = Ok ([], st)).
  { unfold generateDailyCombos.
    destruct Hempty as [-> | [-> | ->]]; simpl; [done | |].
    - by rewrite orb_true_r.
    - by rewrite orb_true_r. }
  split; [done |]. intros combos st'. rewrite Hgen. by intros [= <- <-].
Qed.

Lemma empty_pool_gives_empty_day_witness :
  generateDailyCombos (categorizeMenu (take 2 sodaMenu)) 3 550 800
    day1OverallUsedItemsPtr 0 (initialStore (sourceOf [])) = Ok ([], initialStore (sourceOf []))
  /\ forall combos st',
      generateDailyCombos (categorizeMenu (take 2 sodaMenu)) 3 550 800
        day1OverallUsedItemsPtr 0 (initialStore (sourceOf [])) = Ok (combos, st') ->
      combos = [] /\ globalComboCounter st' = globalComboCounter (initialStore (sourceOf [])).
Proof.
  apply (empty_pool_gives_empty_day (categorizeMenu (take 2 sodaMenu)) 3 550 800
           day1OverallUsedItemsPtr 0 (initialStore (sourceOf []))).
  right. right. vm_compute. reflexivity.
Defined.

(** ** The days of a plan *)

(** C8, as the code has it: for every catalog and every number of days
    up to seven, the run returns a plan with one [DailyMenu] per day
    index, labelled with the names of the week in order; neither an
    empty pool nor an unfilled slot makes it panic. *)
Theorem plan_has_one_menu_per_day (masterMenu : list MenuItem)
    (numDays numCombosPerDay minCalories maxCalories : Z) (seeded : Source) :
  numDays <= 7 ->
  exists plan,
    generateMenuSuggestions masterMenu numDays numCombosPerDay minCalories maxCalories
      seeded = Ok plan
    /\ length (MenuPlan_MenuPlan plan) = Z.to_nat numDays
    /\ map Day (MenuPlan_MenuPlan plan) = take (Z.to_nat numDays) dayNames.
Proof.
  intros Hdays.
  pose (K := fun (plan : list DailyMenu) (d : Z) (_ : DayState) =>
               map Day plan = take (Z.to_nat d) dayNames).
  destruct (dayLoop_rule (categorizeMenu masterMenu) numCombosPerDay minCalories
              maxCalories K) with (remaining := Z.to_nat numDays) (d := 0)
      (plan := @nil DailyMenu) (st := initialStore seeded)
    as (plan & st & Hrun & HK); unfold K; try done; try lia.
  - intros plan d ds name Hd HK Hname.
    rewrite map_app, HK. simpl.
    replace (Z.to_nat (d + 1)) with (S (Z.to_nat d)) by lia.
    by rewrite (take_S_r _ _ _ Hname).
  - exists {| MenuPlan_MenuPlan := plan |}.
    unfold generateMenuSuggestions, runWeek. rewrite Hrun. unfold K in HK.
    replace (Z.to_nat (0 + Z.of_nat (Z.to_nat numDays))) with (Z.to_nat numDays)
      in HK by lia.
    split; [reflexivity |]. split; [| exact HK].
    change (length plan = Z.to_nat numDays).
    rewrite <- (length_map Day), HK, length_take.
    change (length dayNames) with 7%nat. lia.
Qed.

Lemma plan_has_one_menu_per_day_witness :
  exists plan,
    generateMenuSuggestions sampleMenu 7 1 550 800 (sourceOf weekOfDraws) = Ok plan
    /\ length (MenuPlan_MenuPlan plan) = Z.to_nat 7
    /\ map Day (MenuPlan_MenuPlan plan) = take (Z.to_nat 7) dayNames.
Proof.
  apply (plan_has_one_menu_per_day sampleMenu 7 1 550 800 (sourceOf weekOfDraws)).
  lia.
Defined.

(** C8 as stated fails for more than seven days: the eighth day has no
    name, and reading it panics. *)
Lemma eight_days_panic :
  generateMenuSuggestions sampleMenu 8 1 550 800 (sourceOf weekOfDraws)
    = Panic "index out of range"
  /\ ~ exists plan,
        generateMenuSuggestions sampleMenu 8 1 550 800 (sourceOf weekOfDraws) = Ok plan.
Proof.
  assert (H : generateMenuSuggestions sampleMenu 8 1 550 800 (sourceOf weekOfDraws)
              = Panic "index out of range") by (vm_compute; reflexivity).
  split; [done |]. intros [plan Hplan]. by rewrite H in Hplan.
Qed.

(** ** [generateReasoning] *)

Section TasteProfiles.
Variables p1 p2 p3 : string.

Abbreviation tasteProfiles_ :=
  (<[p3 := true]> (<[p2 := true]> (<[p1 := true]> (∅ : gmap string bool)))).

Lemma tasteProfiles_get (q : string) :
  get_bool tasteProfiles_ q = bool_decide (q ∈ [p1; p2; p3]).
Proof.
  unfold get_bool. rewrite !lookup_insert, lookup_empty.
  repeat case_decide; subst; simpl; try done; exfalso; elem_of_cases; naive_solver.
Qed.

Lemma tasteProfiles_size :
  (Z.of_nat (size tasteProfiles_) =? 1) = bool_decide (p1 = p2 /\ p2 = p3).
Proof.
  rewrite !map_size_insert, !lookup_insert, lookup_empty, map_size_empty.
  repeat case_decide; subst; simpl; try done; naive_solver.
Qed.

Lemma remove_dups_3 :
  remove_dups [p1; p2; p3]
  = if decide (p1 = p2 /\ p2 = p3) then [p3]
    else if decide (p1 = p2 \/ p1 = p3) then [p2; p3]
    else if decide (p2 = p3) then [p1; p3]
    else [p1; p2; p3].
Proof.
  simpl.
  repeat case_decide; try done; exfalso; elem_of_cases; subst; intuition congruence.
Qed.
End TasteProfiles.

Lemma bool_decide_elem_of_remove_dups (q : string) (l : list string) :
  bool_decide (q ∈ remove_dups l) = bool_decide (q ∈ l).
Proof. apply bool_decide_ext, elem_of_remove_dups. Qed.

(** The description as the code computes it is the one the
    specification words. *)
Lemma tasteDescription_refines (main side drink : MenuItem) :
  tasteDescription main side drink
  = describeTaste_spec (TasteProfile main) (TasteProfile side) (TasteProfile drink).
Proof.
  unfold tasteDescription, describeTaste_spec.
  generalize (TasteProfile main), (TasteProfile side), (TasteProfile drink).
  intros p1 p2 p3. cbv zeta.
  rewrite tasteProfiles_size, !tasteProfiles_get.
  unfold recognizedProfiles, List.find.
  rewrite !bool_decide_elem_of_remove_dups.
  set (found := if bool_decide ("spicy" ∈ [p1; p2; p3]) then Some "spicy"
                else if bool_decide ("sweet" ∈ [p1; p2; p3]) then Some "sweet"
                else if bool_decide ("savory" ∈ [p1; p2; p3]) then Some "savory"
                else if bool_decide ("fresh" ∈ [p1; p2; p3]) then Some "fresh"
                else None).
  transitivity
    (if bool_decide (p1 = p2 /\ p2 = p3) then "a " +:+ p3 +:+ " profile"
     else match found with
          | Some q => "a " +:+ q +:+ " and mixed taste profile"
          | None => "a mixed taste profile"
          end).
  - case_bool_decide as Hall.
    + destruct Hall as [-> ->].
      by rewrite !insert_insert_eq, insert_empty, map_to_list_singleton.
    + unfold found. by repeat case_bool_decide.
  - clearbody found. rewrite remove_dups_3.
    case_bool_decide; repeat case_decide; done.
Qed.

(** C7: the reasoning string is the fixed sentence around the taste
    description, and the description is the one the specification
    words: one profile alone is named; otherwise the first of spicy,
    sweet, savory and fresh among the distinct profiles is named as
    mixed; otherwise the taste is mixed.  Two savory items and a fresh
    one give "a savory and mixed taste profile". *)
Theorem reasoning_describes_the_taste (main side drink : MenuItem)
    (totalCalories : Z) (avgPopularity : float) :
  generateReasoning main side drink totalCalories avgPopularity
  = "This combo features "
    +:+ describeTaste_spec (TasteProfile main) (TasteProfile side) (TasteProfile drink)
    +:+ ", consists of popular choices (average popularity: " +:+ fmt_f2 avgPopularity
    +:+ "), and meets the calorie target (" +:+ fmt_d totalCalories +:+ " kcal)."
  /\ (forall p, describeTaste_spec p p p = "a " +:+ p +:+ " profile")
  /\ describeTaste_spec "savory" "savory" "fresh" = "a savory and mixed taste profile".
Proof.
  split; [| split].
  - unfold generateReasoning. by rewrite tasteDescription_refines.
  - intros p. unfold describeTaste_spec. rewrite remove_dups_3.
    by rewrite decide_True.
  - reflexivity.
Qed.

(** ** The attempts of a slot *)

(** When no draw is acceptable, the attempts of a slot are all used up
    and only the source has moved. *)
Lemma attemptLoop_all_rejected (mains sides drinks : list MenuItem)
    (minCalories maxCalories : Z) (usedItemsForDay1 : MapPtr) (currentDayIndex : Z)
    (remaining : nat) (attempts : Z) (ds : DayState) :
  mains <> [] -> sides <> [] -> drinks <> [] ->
  0 <= attempts -> attempts + Z.of_nat remaining < 2 ^ 63 ->
  (forall m s dr, m ∈ mains -> s ∈ sides -> dr ∈ drinks ->
     accepts minCalories maxCalories usedItemsForDay1 currentDayIndex
       (currentDayUsedItems ds) (store ds) m s dr = false) ->
  attemptLoop mains sides drinks minCalories maxCalories usedItemsForDay1
    currentDayIndex remaining attempts ds
  = Ok (attempts + Z.of_nat remaining, false, skip (3 * remaining) ds).
Proof.
  intros Hm Hs Hd H0 Hmax Hrej.
  destruct (attemptLoop_spec mains sides drinks minCalories maxCalories usedItemsForDay1
              currentDayIndex Hm Hs Hd remaining attempts ds H0 Hmax)
    as [-> | (k & m & s & dr & _ & Him & His & Hid & Hacc & _)]; [done |].
  by rewrite Hrej in Hacc.
Qed.

(** C5: a slot is attempted at most 5000 times, three draws each.  A
    slot that uses up its 5000 attempts leaves the day's combos, the
    used items, the first-day set, the signature map and the counter as
    they were, and ends the day there, however many slots remain; the
    loop over the slots returns in every case. *)
Theorem slot_attempts_are_bounded (mains sides drinks : list MenuItem)
    (minCalories maxCalories : Z) (usedItemsForDay1 : MapPtr) (currentDayIndex : Z)
    (ds : DayState) :
  mains <> [] -> sides <> [] -> drinks <> [] ->
  (exists attempts comboFound ds',
     attemptLoop mains sides drinks minCalories maxCalories usedItemsForDay1
       currentDayIndex maxAttemptsPerCombo 0 ds = Ok (attempts, comboFound, ds')
     /\ 1 <= attempts <= 5000
     /\ Z.of_nat (used (randSource (store ds')))
        = 3 * attempts + Z.of_nat (used (randSource (store ds)))
     /\ (comboFound = true ->
         length (dailyCombos ds') = S (length (dailyCombos ds))
         /\ globalComboCounter (store ds') = int_add (globalComboCounter (store ds)) 1)
     /\ (comboFound = false ->
         attempts = 5000
         /\ dailyCombos ds' = dailyCombos ds
         /\ currentDayUsedItems ds' = currentDayUsedItems ds
         /\ day1OverallUsedItems (store ds') = day1OverallUsedItems (store ds)
         /\ allGeneratedComboSignatures (store ds')
            = allGeneratedComboSignatures (store ds)
         /\ globalComboCounter (store ds') = globalComboCounter (store ds)
         /\ forall remaining,
             slotLoop mains sides drinks minCalories maxCalories usedItemsForDay1
               currentDayIndex (S remaining) ds = Ok ds'))
  /\ forall remaining,
      exists ds', slotLoop mains sides drinks minCalories maxCalories usedItemsForDay1
                    currentDayIndex remaining ds = Ok ds'.
Proof.
  intros Hm Hs Hd. split.
  - destruct (attemptLoop_spec mains sides drinks minCalories maxCalories usedItemsForDay1
                currentDayIndex Hm Hs Hd maxAttemptsPerCombo 0 ds)
      as [Hloop | (k & m & s & dr & Hk & _ & _ & _ & _ & Hloop)];
      [lia | rewrite maxAttemptsPerCombo_Z; lia | |].
    + pose proof maxAttemptsPerCombo_Z as HZ.
      eexists _, _, _. split; [exact Hloop |].
      split; [lia |]. split; [cbn [skip with_source store set_randSource randSource
                                    advance used]; lia |].
      split; [done |]. intros _. split; [lia |]. repeat split.
      intros remaining. rewrite slotLoop_S, Hloop. reflexivity.
    + pose proof maxAttemptsPerCombo_Z as HZ.
      eexists _, _, _. split; [exact Hloop |].
      split; [lia |]. split; [cbn [skip with_source store set_randSource randSource
                                    advance used acceptCombo recordAccepted]; lia |].
      split; [| done]. intros _. split; [| done].
      cbn [acceptCombo dailyCombos skip with_source]. rewrite length_app. simpl. lia.
  - intros remaining.
    destruct (slotLoop_rule mains sides drinks minCalories maxCalories usedItemsForDay1
                currentDayIndex Hm Hs Hd (fun _ => True)) with (remaining := remaining)
        (ds := ds) as (ds' & Hds' & _); try done.
    by exists ds'.
Qed.

(** The first example of the specification: with the scores 8.0, 7.5
    and 6.0 no draw is acceptable. *)
Lemma sodaMenu_all_rejected (usedItemsForDay1 : MapPtr) (currentDayIndex : Z)
    (ds : DayState) (m s dr : MenuItem) :
  m ∈ get_items (categorizeMenu sodaMenu) "main" ->
  s ∈ get_items (categorizeMenu sodaMenu) "side" ->
  dr ∈ get_items (categorizeMenu sodaMenu) "drink" ->
  accepts 550 800 usedItemsForDay1 currentDayIndex
    (currentDayUsedItems ds) (store ds) m s dr = false.
Proof.
  intros Hm Hs Hdr.
  apply elem_of_pool in Hm as [Hm Hcm], Hs as [Hs Hcs], Hdr as [Hdr Hcd].
  unfold sodaMenu in Hm, Hs, Hdr. elem_of_cases; subst; try done.
  unfold accepts. apply andb_false_iff. right. vm_compute. reflexivity.
Qed.

(** So a day on that menu uses up the attempts of its first slot and
    has no combo. *)
Lemma sodaMenu_day_is_empty (usedItemsForDay1 : MapPtr) (currentDayIndex : Z)
    (st : Store) :
  generateDailyCombos (categorizeMenu sodaMenu) 3 550 800 usedItemsForDay1
    currentDayIndex st
  = Ok ([], set_randSource (advance (3 * maxAttemptsPerCombo) (randSource st)) st).
Proof.
  unfold generateDailyCombos.
  assert (Hm : get_items (categorizeMenu sodaMenu) "main" <> []) by (vm_compute; done).
  assert (Hs : get_items (categorizeMenu sodaMenu) "side" <> []) by (vm_compute; done).
  assert (Hd : get_items (categorizeMenu sodaMenu) "drink" <> []) by (vm_compute; done).
  destruct (get_items (categorizeMenu sodaMenu) "main") as [| m0 ms] eqn:Em; [done |].
  destruct (get_items (categorizeMenu sodaMenu) "side") as [| s0 ss] eqn:Es; [done |].
  destruct (get_items (categorizeMenu sodaMenu) "drink") as [| d0 dd] eqn:Ed; [done |].
  cbn [length Z.of_nat Z.eqb orb]. change (Z.to_nat 3) with 3%nat.
  rewrite slotLoop_S, attemptLoop_all_rejected;
    [reflexivity | done | done | done | lia | rewrite maxAttemptsPerCombo_Z; lia |].
  intros m s dr Him His Hid.
  apply sodaMenu_all_rejected; by rewrite ?Em, ?Es, ?Ed.
Qed.

(** With Water for Soda the scores 8.0, 7.5 and 7.9 are still 0.5
    apart, above the tolerance. *)
Lemma water_combo_is_rejected :
  isValidCombo veggieBurger fries water 550 800 f0_15 = false
  /\ fst (calculateComboMetrics veggieBurger fries water) = 650
  /\ tasteDescription veggieBurger fries water = "a savory and mixed taste profile".
Proof. by vm_compute. Qed.

Lemma slot_attempts_are_bounded_witness :
  exists ds',
    slotLoop (get_items (categorizeMenu sodaMenu) "main")
      (get_items (categorizeMenu sodaMenu) "side")
      (get_items (categorizeMenu sodaMenu) "drink")
      550 800 day1OverallUsedItemsPtr 0 3 (freshDay (initialStore (sourceOf []))) = Ok ds'
    /\ dailyCombos ds' = []
    /\ globalComboCounter (store ds') = 0
    /\ Z.of_nat (used (randSource (store ds'))) = 15000.
Proof.
  assert (Hm : get_items (categorizeMenu sodaMenu) "main" <> []) by (vm_compute; done).
  assert (Hs : get_items (categorizeMenu sodaMenu) "side" <> []) by (vm_compute; done).
  assert (Hd : get_items (categorizeMenu sodaMenu) "drink" <> []) by (vm_compute; done).
  destruct (slot_attempts_are_bounded _ _ _ 550 800 day1OverallUsedItemsPtr 0
              (freshDay (initialStore (sourceOf []))) Hm Hs Hd)
    as [(attempts & comboFound & ds' & Hloop & _ & Hused & _ & Hfalse) _].
  rewrite attemptLoop_all_rejected in Hloop;
    [| done | done | done | lia | rewrite maxAttemptsPerCombo_Z; lia
     | intros; by apply sodaMenu_all_rejected].
  injection Hloop as Hatt <- Hds'.
  destruct Hfalse as (Hn & Hcombos & _ & _ & _ & Hcounter & Hslots); [done |].
  exists ds'. split; [apply Hslots |].
  split; [by rewrite Hcombos |]. split; [by rewrite Hcounter |].
  rewrite Hused, Hn. reflexivity.
Defined.

(** ** Items within a day *)

Lemma get_bool_markUsed (m : gmap string bool) (mainItem sideItem drinkItem : MenuItem)
    (x : string) :
  get_bool (markUsed m mainItem sideItem drinkItem) x
  = bool_decide (x ∈ [ItemName mainItem; ItemName sideItem; ItemName drinkItem])
    || get_bool m x.
Proof.
  unfold get_bool, markUsed. rewrite !lookup_insert.
  repeat case_decide; subst; simpl; try done; exfalso; elem_of_cases; naive_solver.
Qed.

Lemma isUniqueForCurrentDayItems_true (currentDayUsedItems : gmap string bool)
    (m s dr : MenuItem) (x : string) :
  isUniqueForCurrentDayItems currentDayUsedItems m s dr = true ->
  x ∈ [ItemName m; ItemName s; ItemName dr] ->
  get_bool currentDayUsedItems x = false.
Proof.
  unfold isUniqueForCurrentDayItems. rewrite negb_true_iff, !orb_false_iff.
  intros [[Hm Hs] Hdr] Hx. by elem_of_cases; subst.
Qed.

Lemma accepts_true (minCalories maxCalories : Z) (usedItemsForDay1 : MapPtr)
    (currentDayIndex : Z) (currentDayUsedItems : gmap string bool) (st : Store)
    (m s dr : MenuItem) :
  accepts minCalories maxCalories usedItemsForDay1 currentDayIndex
    currentDayUsedItems st m s dr = true ->
  isUniqueForDay1 usedItemsForDay1 st m s dr = true
  /\ isUniqueForCurrentDayItems currentDayUsedItems m s dr = true
  /\ isUniqueWithin3Days st currentDayIndex m s dr = true
  /\ isValidCombo m s dr minCalories maxCalories f0_15 = true.
Proof. unfold accepts. rewrite !andb_true_iff. tauto. Qed.

Lemma namesApart_snoc (combos : list Combo) (c : Combo) :
  namesApart combos ->
  (forall c' x, c' ∈ combos -> x ∈ comboNames c' -> x ∉ comboNames c) ->
  namesApart (combos ++ [c]).
Proof.
  intros Hold Hnew i j ci cj x Hi Hj Hij Hx.
  apply lookup_snoc_Some in Hi as [[Hil Hi] | [Hil <-]],
        Hj as [[Hjl Hj] | [Hjl <-]].
  - exact (Hold i j ci cj x Hi Hj Hij Hx).
  - exact (Hnew ci x (list_elem_of_lookup_2 _ _ _ Hi) Hx).
  - intros Hx'. exact (Hnew cj x (list_elem_of_lookup_2 _ _ _ Hj) Hx' Hx).
  - lia.
Qed.

(** Within every day of a run, accepted combos share no item name. *)
Lemma plan_days_namesApart (masterMenu : list MenuItem)
    (numDays numCombosPerDay minCalories maxCalories : Z) (seeded : Source)
    (plan : list DailyMenu) (st : Store) :
  runWeek masterMenu numDays numCombosPerDay minCalories maxCalories seeded
    = Ok (plan, st) ->
  Forall (fun day => namesApart (Combos day)) plan.
Proof.
  intros Hrun.
  pose (K := fun (plan : list DailyMenu) (_ : Z) (ds : DayState) =>
               Forall (fun day => namesApart (Combos day)) plan
               /\ namesApart (dailyCombos ds)
               /\ forall c x, c ∈ dailyCombos ds -> x ∈ comboNames c ->
                              get_bool (currentDayUsedItems ds) x = true).
  enough (HK : K plan (Z.of_nat (Z.to_nat numDays)) (freshDay st)) by apply HK.
  eapply (runWeek_rule K); [| | | | exact Hrun]; unfold K.
  - done.
  - intros plan0 d ds m s dr _ (Hplan & Hday & Hused) _ _ _ Hacc.
    apply accepts_true in Hacc as (_ & Huniq & _ & _).
    split; [done |]. simpl. split.
    + apply namesApart_snoc; [done |].
      intros c' x Hc' Hx Hx'.
      pose proof (Hused c' x Hc' Hx) as Htrue.
      by rewrite (isUniqueForCurrentDayItems_true _ _ _ _ _ Huniq Hx') in Htrue.
    + intros c x Hc Hx. rewrite get_bool_markUsed.
      apply elem_of_app in Hc as [Hc | Hc%list_elem_of_singleton].
      * rewrite (Hused c x Hc Hx). apply orb_true_r.
      * subst c. by rewrite bool_decide_eq_true_2.
  - intros plan0 d ds name _ (Hplan & Hday & _) _.
    split; [apply Forall_app; split; [done | by apply Forall_singleton] |].
    split; [by intros i j ci cj x Hi | by intros c x Hc%elem_of_nil].
  - split; [by apply Forall_nil |].
    split; [by intros i j ci cj x Hi | by intros c x Hc%elem_of_nil].
Qed.

(** C3: within every day of a generated plan, day 0 included, no item
    name appears in two accepted combos, whatever its position in
    them. *)
Theorem no_item_twice_in_a_day (masterMenu : list MenuItem)
    (numDays numCombosPerDay minCalories maxCalories : Z) (seeded : Source)
    (plan : MenuPlan) (d i j : nat) (day : DailyMenu) (ci cj : Combo) (x : string) :
  generateMenuSuggestions masterMenu numDays numCombosPerDay minCalories maxCalories seeded
    = Ok plan ->
  MenuPlan_MenuPlan plan !! d = Some day ->
  Combos day !! i = Some ci -> Combos day !! j = Some cj -> i <> j ->
  x ∈ comboNames ci -> x ∉ comboNames cj.
Proof.
  intros [st Hrun]%generateMenuSuggestions_Ok Hday Hi Hj Hij.
  pose proof (plan_days_namesApart _ _ _ _ _ _ _ _ Hrun) as Hall.
  rewrite Forall_forall in Hall.
  by apply (Hall day (list_elem_of_lookup_2 _ _ _ Hday) i j ci cj x).
Qed.

Lemma no_item_twice_in_a_day_witness :
  exists plan day ci cj,
    generateMenuSuggestions sampleMenu 1 2 550 800 (sourceOf [0; 0; 0; 1; 1; 1]) = Ok plan
    /\ MenuPlan_MenuPlan plan !! 0%nat = Some day
    /\ Combos day !! 0%nat = Some ci
    /\ Combos day !! 1%nat = Some cj
    /\ comboNames ci = ["Veggie Burger"; "Fries"; "Water"]
    /\ "Fries" ∉ comboNames cj.
Proof.
  eexists _, _, _, _.
  split; [vm_compute; reflexivity |].
  split; [reflexivity |]. split; [reflexivity |]. split; [reflexivity |].
  split; [reflexivity |].
  eapply (no_item_twice_in_a_day sampleMenu 1 2 550 800 (sourceOf [0; 0; 0; 1; 1; 1])
            _ 0%nat 0%nat 1%nat);
    [vm_compute; reflexivity | reflexivity | reflexivity | reflexivity | lia
     | solve_elem_of].
Defined.

(** ** Signatures across the days *)

(** One more combo in the last day. *)
Lemma comboAt_snoc_combo (days : list (list Combo)) (l : list Combo) (c' : Combo)
    (d i : nat) (c : Combo) :
  comboAt (days ++ [l ++ [c']]) d i c <->
  comboAt (days ++ [l]) d i c \/ (d = length days /\ i = length l /\ c = c').
Proof.
  unfold comboAt. split.
  - intros (l0 & Hl0 & Hc).
    apply lookup_snoc_Some in Hl0 as [[Hlt Hl0] | [-> <-]].
    + left. exists l0. split; [by apply lookup_app_l_Some | done].
    + apply lookup_snoc_Some in Hc as [[Hlt Hc] | [-> <-]].
      * left. exists l. split; [| done].
        rewrite lookup_app_r, Nat.sub_diag by lia. done.
      * by right.
  - intros [(l0 & Hl0 & Hc) | (-> & -> & ->)].
    + apply lookup_snoc_Some in Hl0 as [[Hlt Hl0] | [-> <-]].
      * exists l0. split; [by apply lookup_app_l_Some | done].
      * exists (l ++ [c']). split; [| by apply lookup_app_l_Some].
        rewrite lookup_app_r, Nat.sub_diag by lia. done.
    + exists (l ++ [c']). split.
      * rewrite lookup_app_r, Nat.sub_diag by lia. done.
      * rewrite lookup_app_r, Nat.sub_diag by lia. done.
Qed.

(** One more day, still empty. *)
Lemma comboAt_snoc_day (days : list (list Combo)) (d i : nat) (c : Combo) :
  comboAt (days ++ [[]]) d i c <-> comboAt days d i c.
Proof.
  unfold comboAt. split.
  - intros (l0 & Hl0 & Hc).
    apply lookup_snoc_Some in Hl0 as [[Hlt Hl0] | [-> <-]]; [by exists l0 | done].
  - intros (l0 & Hl0 & Hc). exists l0. split; [by apply lookup_app_l_Some | done].
Qed.

Lemma comboAt_plan (plan : list DailyMenu) (d i : nat) (day : DailyMenu) (c : Combo) :
  plan !! d = Some day -> Combos day !! i = Some c ->
  comboAt (map Combos plan) d i c.
Proof.
  intros Hday Hc. exists (Combos day). split; [| done].
  change (map Combos plan) with (Combos <$> plan).
  by rewrite list_lookup_fmap, Hday.
Qed.

Lemma signatureOf_buildCombo (m s dr : MenuItem) (n : Z) :
  signatureOf (buildCombo m s dr n)
  = comboSignature (ItemName m) (ItemName s) (ItemName dr).
Proof. done. Qed.

(** The rule of lines 174-179, read on the map: a signature whose last
    day is less than three days back is refused. *)
Lemma isUniqueWithin3Days_true (st : Store) (currentDayIndex lastUsedDay : Z)
    (m s dr : MenuItem) :
  allGeneratedComboSignatures st
    !! comboSignature (ItemName m) (ItemName s) (ItemName dr) = Some lastUsedDay ->
  is_int (currentDayIndex - lastUsedDay) ->
  isUniqueWithin3Days st currentDayIndex m s dr = true <->
  3 <= currentDayIndex - lastUsedDay.
Proof.
  intros Hlast Hint. unfold isUniqueWithin3Days. rewrite Hlast.
  rewrite (int_sub_exact _ _ Hint), negb_true_iff, Z.ltb_ge. done.
Qed.

Lemma plan_signaturesApart (masterMenu : list MenuItem)
    (numDays numCombosPerDay minCalories maxCalories : Z) (seeded : Source)
    (plan : list DailyMenu) (st : Store) :
  runWeek masterMenu numDays numCombosPerDay minCalories maxCalories seeded
    = Ok (plan, st) ->
  signaturesApart (map Combos plan).
Proof.
  intros Hrun.
  pose (K := fun (plan : list DailyMenu) (d : Z) (ds : DayState) =>
               Z.of_nat (length plan) = d
               /\ signaturesTracked (map Combos plan ++ [dailyCombos ds]) d (store ds)
               /\ signaturesApart (map Combos plan ++ [dailyCombos ds])).
  enough (HK : K plan (Z.of_nat (Z.to_nat numDays)) (freshDay st)).
  { destruct HK as (_ & _ & HK). intros d1 i1 c1 d2 i2 c2 H1 H2.
    apply (HK d1 i1 c1 d2 i2 c2); by apply (proj2 (comboAt_snoc_day _ _ _ _)). }
  eapply (runWeek_rule K); [| | | | exact Hrun]; unfold K.
  - done.
  - intros plan0 d ds m s dr Hd (Hlen & Htracked & Hapart) _ _ _ Hacc.
    apply accepts_true in Hacc as (_ & _ & H3days & _).
    set (c' := buildCombo m s dr
                 (globalComboCounter
                    (recordAccepted (trackerFor d) d m s dr (store ds)))).
    assert (Hnew_old : forall d1 i1 c1,
               comboAt (map Combos plan0 ++ [dailyCombos ds]) d1 i1 c1 ->
               signatureOf c1 = signatureOf c' -> (d1 + 3 <= length plan0)%nat).
    { intros d1 i1 c1 H1 Hsig.
      destruct (Htracked d1 i1 c1 H1) as (last & Hlast & Hbounds).
      rewrite Hsig in Hlast. unfold c' in Hlast. rewrite signatureOf_buildCombo in Hlast.
      apply (isUniqueWithin3Days_true _ _ _ _ _ _ Hlast) in H3days;
        [lia | unfold is_int; lia]. }
    split; [done |]. split.
    + intros d1 i1 c1 H1. simpl in H1.
      apply comboAt_snoc_combo in H1 as [H1 | (-> & -> & ->)].
      * destruct (Htracked d1 i1 c1 H1) as (last & Hlast & Hbounds).
        simpl. rewrite lookup_insert. case_decide; [| by exists last].
        exists d. split; [done | lia].
      * simpl. rewrite lookup_insert, decide_True by done.
        exists d. rewrite length_map. split; [done | lia].
    + intros d1 i1 c1 d2 i2 c2 H1 H2 Hne Hsig. simpl in H1, H2.
      apply comboAt_snoc_combo in H1 as [H1 | (-> & -> & ->)],
            H2 as [H2 | (-> & -> & ->)].
      * by apply (Hapart d1 i1 c1 d2 i2 c2).
      * left. rewrite length_map. by apply (Hnew_old d1 i1 c1).
      * right. rewrite length_map. by apply (Hnew_old d2 i2 c2).
      * done.
  - intros plan0 d ds name Hd (Hlen & Htracked & Hapart) _.
    rewrite map_app. simpl.
    split; [rewrite length_app; simpl; lia |]. split.
    + intros d1 i1 c1 H1. apply (proj1 (comboAt_snoc_day _ _ _ _)) in H1.
      destruct (Htracked d1 i1 c1 H1) as (last & Hlast & Hbounds).
      exists last. split; [done | lia].
    + intros d1 i1 c1 d2 i2 c2 H1 H2.
      apply (proj1 (comboAt_snoc_day _ _ _ _)) in H1, H2.
      by apply Hapart.
  - split; [done |]. split.
    + intros d1 i1 c1 (l & Hl & Hc). by destruct d1 as [| [| ?]]; simplify_eq/=.
    + intros d1 i1 c1 d2 i2 c2 (l & Hl & Hc). by destruct d1 as [| [| ?]]; simplify_eq/=.
Qed.

(** C2: two accepted combos of a run that have the same signature, the
    sorted names joined, were accepted on days at least three apart. *)
Theorem same_signature_three_days_apart (masterMenu : list MenuItem)
    (numDays numCombosPerDay minCalories maxCalories : Z) (seeded : Source)
    (plan : MenuPlan) (d1 i1 d2 i2 : nat) (day1 day2 : DailyMenu) (c1 c2 : Combo) :
  generateMenuSuggestions masterMenu numDays numCombosPerDay minCalories maxCalories seeded
    = Ok plan ->
  MenuPlan_MenuPlan plan !! d1 = Some day1 -> Combos day1 !! i1 = Some c1 ->
  MenuPlan_MenuPlan plan !! d2 = Some day2 -> Combos day2 !! i2 = Some c2 ->
  (d1, i1) <> (d2, i2) ->
  signatureOf c1 = signatureOf c2 ->
  (d1 + 3 <= d2)%nat \/ (d2 + 3 <= d1)%nat.
Proof.
  intros [st Hrun]%generateMenuSuggestions_Ok Hday1 Hc1 Hday2 Hc2.
  apply (plan_signaturesApart _ _ _ _ _ _ _ _ Hrun); by eapply comboAt_plan.
Qed.

Lemma same_signature_three_days_apart_witness :
  exists plan day1 day2 c1 c2,
    generateMenuSuggestions sampleMenu 4 1 550 800 (sourceOf weekOfDraws) = Ok plan
    /\ MenuPlan_MenuPlan plan !! 0%nat = Some day1 /\ Combos day1 !! 0%nat = Some c1
    /\ MenuPlan_MenuPlan plan !! 3%nat = Some day2 /\ Combos day2 !! 0%nat = Some c2
    /\ signatureOf c1 = "Fries_Veggie Burger_Water"
    /\ signatureOf c2 = "Fries_Veggie Burger_Water"
    /\ ((0 + 3 <= 3)%nat \/ (3 + 3 <= 0)%nat).
Proof.
  eexists _, _, _, _, _.
  split; [vm_compute; reflexivity |].
  split; [reflexivity |]. split; [reflexivity |].
  split; [reflexivity |]. split; [reflexivity |].
  split; [vm_compute; reflexivity |]. split; [vm_compute; reflexivity |].
  eapply (same_signature_three_days_apart sampleMenu 4 1 550 800 (sourceOf weekOfDraws)
            _ 0%nat 0%nat 3%nat 0%nat);
    [vm_compute; reflexivity | reflexivity | reflexivity | reflexivity | reflexivity
     | done | vm_compute; reflexivity].
Defined.

(** The same rule read on one draw: while a signature's last day is
    less than three days back, the draw is not accepted. *)
Lemma signature_refused_within_3_days (minCalories maxCalories : Z)
    (usedItemsForDay1 : MapPtr) (currentDayIndex lastUsedDay : Z)
    (currentDayUsedItems : gmap string bool) (st : Store) (m s dr : MenuItem) :
  allGeneratedComboSignatures st
    !! comboSignature (ItemName m) (ItemName s) (ItemName dr) = Some lastUsedDay ->
  is_int (currentDayIndex - lastUsedDay) ->
  currentDayIndex - lastUsedDay < 3 ->
  accepts minCalories maxCalories usedItemsForDay1 currentDayIndex
    currentDayUsedItems st m s dr = false.
Proof.
  intros Hlast Hint Hlt.
  destruct (accepts _ _ _ _ _ _ _ _ _) eqn:Hacc; [| done].
  apply accepts_true in Hacc as (_ & _ & H3 & _).
  apply (isUniqueWithin3Days_true _ _ _ _ _ _ Hlast Hint) in H3. lia.
Qed.

(** ** Identifiers *)

#[global] Instance comboIdOf_inj : Inj (=) (=) comboIdOf.
Proof.
  intros a b H. unfold comboIdOf, fmt_d in H. simpl in H.
  injection H as H. apply (pretty_Z_inj (Z.of_nat a) (Z.of_nat b)) in H. lia.
Qed.

(** The mains of a day's combos are distinct mains of the pool, so a
    day has no more combos than the pool has mains. *)
Lemma distinct_mains_bound (mains : list MenuItem) (combos : list Combo) :
  NoDup (map Main combos) ->
  (forall c, c ∈ combos -> Main c ∈ map ItemName mains) ->
  (length combos <= length mains)%nat.
Proof.
  intros Hnd Hin.
  rewrite <- (length_map Main combos), <- (length_map ItemName mains).
  apply submseteq_length, NoDup_submseteq; [done |].
  intros x (c & -> & Hc)%list_elem_of_fmap. by apply Hin.
Qed.

(** The identifiers of a run are "combo_1", "combo_2", ... in the order
    of acceptance, the counter being the number of combos accepted. *)
Lemma plan_ids_count_up (masterMenu : list MenuItem)
    (numDays numCombosPerDay minCalories maxCalories : Z) (seeded : Source)
    (plan : list DailyMenu) (st : Store) :
  Z.of_nat (length masterMenu) < 2 ^ 60 ->
  runWeek masterMenu numDays numCombosPerDay minCalories maxCalories seeded
    = Ok (plan, st) ->
  map ComboID (allCombos plan) = map comboIdOf (seq 1 (length (allCombos plan)))
  /\ globalComboCounter st = Z.of_nat (length (allCombos plan)).
Proof.
  intros Hsize Hrun.
  set (mains := get_items (categorizeMenu masterMenu) "main").
  assert (Hmains : (length mains <= length masterMenu)%nat)
    by (unfold mains; rewrite get_items_categorizeMenu; apply length_filter).
  pose (K := fun (plan : list DailyMenu) (d : Z) (ds : DayState) =>
               (map ComboID (allCombos plan ++ dailyCombos ds)
                = map comboIdOf (seq 1 (length (allCombos plan ++ dailyCombos ds)))
                /\ globalComboCounter (store ds)
                   = Z.of_nat (length (allCombos plan ++ dailyCombos ds)))
               /\ Z.of_nat (length (allCombos plan)) <= d * Z.of_nat (length mains)
               /\ NoDup (map Main (dailyCombos ds))
               /\ forall c, c ∈ dailyCombos ds ->
                     Main c ∈ map ItemName mains
                     /\ get_bool (currentDayUsedItems ds) (Main c) = true).
  enough (HK : K plan (Z.of_nat (Z.to_nat numDays)) (freshDay st))
    by (destruct HK as (HK & _); simpl in HK; by rewrite app_nil_r in HK).
  eapply (runWeek_rule K); [| | | | exact Hrun]; unfold K.
  - done.
  - intros plan0 d ds m s dr Hd ((Hids & Hcount) & Hdays & Hnd & Hused) Hm _ _ Hacc.
    apply accepts_true in Hacc as (_ & Huniq & _ & _).
    pose proof (distinct_mains_bound mains (dailyCombos ds) Hnd
                  (fun c Hc => proj1 (Hused c Hc))) as Hday.
    assert (Hfresh : get_bool (currentDayUsedItems ds) (ItemName m) = false)
      by (apply (isUniqueForCurrentDayItems_true _ _ _ _ _ Huniq); solve_elem_of).
    assert (Hall : Z.of_nat (length (allCombos plan0 ++ dailyCombos ds))
                   <= 7 * Z.of_nat (length mains)) by (rewrite length_app; nia).
    simpl. rewrite app_assoc.
    generalize dependent (allCombos plan0 ++ dailyCombos ds). intros all Hids Hcount Hall.
    rewrite Hcount, int_add_exact by (unfold is_int; lia).
    split; [split |].
    + rewrite length_app, Nat.add_1_r, seq_S, !map_app, Hids. simpl. do 2 f_equal.
      unfold comboIdOf. do 2 f_equal. lia.
    + rewrite length_app. simpl. lia.
    + split; [done |]. split.
      * rewrite map_app. apply NoDup_app. split; [done |].
        split; [| apply NoDup_singleton].
        intros x (c & Hxc & Hc)%list_elem_of_fmap Hx'%list_elem_of_singleton.
        destruct (Hused c Hc) as [_ Htrue]. simpl in Hx'. congruence.
      * intros c [Hc | ->%list_elem_of_singleton]%elem_of_app.
        -- destruct (Hused c Hc) as [Hin Htrue]. split; [done |].
           rewrite get_bool_markUsed, Htrue. apply orb_true_r.
        -- simpl. split; [by apply list_elem_of_fmap_2 |].
           rewrite get_bool_markUsed, bool_decide_eq_true_2; [done | solve_elem_of].
  - intros plan0 d ds name Hd ((Hids & Hcount) & Hdays & Hnd & Hused) _.
    pose proof (distinct_mains_bound mains (dailyCombos ds) Hnd
                  (fun c Hc => proj1 (Hused c Hc))) as Hday.
    rewrite allCombos_snoc. simpl. rewrite app_nil_r.
    split; [done |]. rewrite length_app.
    split; [nia |]. split; [apply NoDup_nil_2 | by intros c Hc%elem_of_nil].
  - simpl. split; [done |]. split; [lia |].
    split; [apply NoDup_nil_2 | by intros c Hc%elem_of_nil].
Qed.

(** C4: over a whole run the identifiers are pairwise distinct, and
    their numbers grow strictly in the order of acceptance: the [k]-th
    accepted combo is "combo_k".  (The bound on the catalog keeps the
    64-bit counter from wrapping; a Go slice of 64-byte items cannot be
    that long.) *)
Theorem combo_ids_distinct_and_increasing (masterMenu : list MenuItem)
    (numDays numCombosPerDay minCalories maxCalories : Z) (seeded : Source)
    (plan : MenuPlan) :
  Z.of_nat (length masterMenu) < 2 ^ 60 ->
  generateMenuSuggestions masterMenu numDays numCombosPerDay minCalories maxCalories seeded
    = Ok plan ->
  NoDup (map ComboID (allCombos (MenuPlan_MenuPlan plan)))
  /\ (forall (i j : nat) (ci cj : Combo),
        allCombos (MenuPlan_MenuPlan plan) !! i = Some ci ->
        allCombos (MenuPlan_MenuPlan plan) !! j = Some cj ->
        (i < j)%nat ->
        exists ni nj : Z,
          ComboID ci = "combo_" +:+ fmt_d ni
          /\ ComboID cj = "combo_" +:+ fmt_d nj
          /\ ni < nj)
  /\ map ComboID (allCombos (MenuPlan_MenuPlan plan))
     = map comboIdOf (seq 1 (length (allCombos (MenuPlan_MenuPlan plan)))).
Proof.
  intros Hsize [st Hrun]%generateMenuSuggestions_Ok.
  destruct (plan_ids_count_up _ _ _ _ _ _ _ _ Hsize Hrun) as [Hids _].
  split; [| split; [| done]].
  - rewrite Hids. apply (NoDup_fmap_2 comboIdOf), NoDup_seq.
  - assert (Hid : forall (i : nat) (c : Combo),
               allCombos (MenuPlan_MenuPlan plan) !! i = Some c ->
               ComboID c = comboIdOf (1 + i)).
    { intros i c Hc.
      assert (H : map ComboID (allCombos (MenuPlan_MenuPlan plan)) !! i
                  = Some (ComboID c))
        by (change (map ComboID ?l) with (ComboID <$> l);
            by rewrite list_lookup_fmap, Hc).
      rewrite Hids in H. change (map comboIdOf ?l) with (comboIdOf <$> l) in H.
      rewrite list_lookup_fmap in H.
      destruct (seq 1 _ !! i) as [k |] eqn:Hk; [| done].
      apply lookup_seq in Hk as [-> _]. by injection H. }
    intros i j ci cj Hi Hj Hij.
    exists (Z.of_nat (1 + i)), (Z.of_nat (1 + j)).
    split; [by apply Hid |]. split; [by apply Hid | lia].
Qed.

Lemma combo_ids_distinct_and_increasing_witness :
  exists plan,
    generateMenuSuggestions sampleMenu 7 1 550 800 (sourceOf weekOfDraws) = Ok plan
    /\ map ComboID (allCombos (MenuPlan_MenuPlan plan))
       = ["combo_1"; "combo_2"; "combo_3"; "combo_4"; "combo_5"; "combo_6"; "combo_7"]
    /\ NoDup (map ComboID (allCombos (MenuPlan_MenuPlan plan))).
Proof.
  eexists. split; [vm_compute; reflexivity |].
  split; [vm_compute; reflexivity |].
  eapply (combo_ids_distinct_and_increasing sampleMenu 7 1 550 800 (sourceOf weekOfDraws));
    [vm_compute; reflexivity | vm_compute; reflexivity].
Defined.

(** ** The random draws are the only source of variation *)

Lemma sameResult_bind {A B : Type} (R : A -> A -> Prop) (R' : B -> B -> Prop)
    (r1 r2 : result A) (k1 k2 : A -> result B) :
  sameResult R r1 r2 ->
  (forall a1 a2, R a1 a2 -> sameResult R' (k1 a1) (k2 a2)) ->
  sameResult R' (r1 ≫= k1) (r2 ≫= k2).
Proof.
  destruct r1 as [a1 | msg1], r2 as [a2 | msg2]; simpl; try done.
  intros HR Hk. by apply Hk.
Qed.

Lemma sameResult_refl {A : Type} (r : result A) : sameResult (=) r r.
Proof. by destruct r. Qed.

Lemma sameResult_weaken {A : Type} (R R' : A -> A -> Prop) (r1 r2 : result A) :
  sameResult R r1 r2 -> (forall a1 a2, R a1 a2 -> R' a1 a2) -> sameResult R' r1 r2.
Proof. destruct r1, r2; simpl; auto. Qed.

Section SameDraws.
Variable hi : nat.

(** One draw: the same value, one position further. *)
Lemma rand_Intn_same (n : Z) (s1 s2 : Source) :
  sameDraws hi s1 s2 -> (used s1 < hi)%nat ->
  sameResult (fun a1 a2 => fst a1 = fst a2 /\ sameDraws hi (snd a1) (snd a2)
                           /\ used (snd a1) = S (used s1))
    (rand_Intn n s1) (rand_Intn n s2).
Proof.
  intros [Hused Hraw] Hlt. unfold rand_Intn, sameDraws.
  destruct (n <=? 0); simpl; [done |].
  rewrite (Hraw (used s1)) by lia. rewrite <- Hused.
  repeat split. intros i Hi. apply Hraw. lia.
Qed.

Lemma drawItems_same (mains sides drinks : list MenuItem) (s1 s2 : Source) :
  sameDraws hi s1 s2 -> (3 + used s1 <= hi)%nat ->
  sameResult (fun a1 a2 => fst a1 = fst a2 /\ sameDraws hi (snd a1) (snd a2)
                           /\ used (snd a1) = (3 + used s1)%nat)
    (drawItems mains sides drinks s1) (drawItems mains sides drinks s2).
Proof.
  intros H Hhi. unfold drawItems.
  eapply sameResult_bind; [apply rand_Intn_same; [done | lia] |].
  intros [i sa1] [i' sa2] (Hi & H1 & Hu1). simpl in Hi, H1, Hu1. subst i'.
  apply (sameResult_bind (=)); [apply sameResult_refl |]. intros m ? <-.
  eapply sameResult_bind; [apply rand_Intn_same; [done | lia] |].
  intros [j sb1] [j' sb2] (Hj & H2 & Hu2). simpl in Hj, H2, Hu2. subst j'.
  apply (sameResult_bind (=)); [apply sameResult_refl |]. intros s ? <-.
  eapply sameResult_bind; [apply rand_Intn_same; [done | lia] |].
  intros [k sc1] [k' sc2] (Hk & H3 & Hu3). simpl in Hk, H3, Hu3. subst k'.
  apply (sameResult_bind (=)); [apply sameResult_refl |]. intros dr ? <-.
  simpl. repeat split; [apply H3.. | lia].
Qed.

Variables mains sides drinks : list MenuItem.
Variables minCalories maxCalories : Z.
Variable usedItemsForDay1 : MapPtr.
Variable currentDayIndex : Z.

Abbreviation position ds := (used (randSource (store ds))).

Lemma attempt_same (ds1 ds2 : DayState) :
  sameDay hi ds1 ds2 -> (3 + position ds1 <= hi)%nat ->
  sameResult (fun a1 a2 => fst a1 = fst a2 /\ sameDay hi (snd a1) (snd a2)
                           /\ position (snd a1) = (3 + position ds1)%nat)
    (attempt mains sides drinks minCalories maxCalories usedItemsForDay1
       currentDayIndex ds1)
    (attempt mains sides drinks minCalories maxCalories usedItemsForDay1
       currentDayIndex ds2).
Proof.
  destruct ds1 as [combos1 used1 [day1a sigs1 counter1 srca]],
           ds2 as [combos2 used2 [day1b sigs2 counter2 srcb]].
  intros (Hcombos & Hused & Hday1 & Hsigs & Hcounter & Hsrc) Hhi.
  simpl in Hcombos, Hused, Hday1, Hsigs, Hcounter, Hsrc, Hhi. subst.
  unfold attempt. cbn [store randSource].
  eapply sameResult_bind; [by apply drawItems_same |].
  intros [[[m s] dr] src1] [[[m' s'] dr'] src2] ([= <- <- <-] & Hsrc' & Hpos).
  simpl in Hsrc', Hpos.
  cbn [store currentDayUsedItems dailyCombos].
  change (accepts minCalories maxCalories usedItemsForDay1 currentDayIndex used2
            (set_randSource src1 _) m s dr)
    with (accepts minCalories maxCalories usedItemsForDay1 currentDayIndex used2
            (set_randSource src2
               {| day1OverallUsedItems := day1b; allGeneratedComboSignatures := sigs2;
                  globalComboCounter := counter2; randSource := srcb |}) m s dr).
  destruct (accepts _ _ _ _ _ _ _ _ _); simpl; done.
Qed.

(** The attempts of a slot draw at most [3 * remaining] values. *)
Lemma attemptLoop_same (remaining : nat) (attempts : Z) (ds1 ds2 : DayState) :
  sameDay hi ds1 ds2 -> (3 * remaining + position ds1 <= hi)%nat ->
  sameResult (fun a1 a2 => fst a1 = fst a2 /\ sameDay hi (snd a1) (snd a2)
                           /\ (position (snd a1) <= 3 * remaining + position ds1)%nat)
    (attemptLoop mains sides drinks minCalories maxCalories usedItemsForDay1
       currentDayIndex remaining attempts ds1)
    (attemptLoop mains sides drinks minCalories maxCalories usedItemsForDay1
       currentDayIndex remaining attempts ds2).
Proof.
  revert attempts ds1 ds2. induction remaining as [| n IH]; intros attempts ds1 ds2 H Hhi.
  - simpl. repeat split; [apply H.. | lia].
  - simpl attemptLoop.
    eapply sameResult_bind; [apply attempt_same; [done | lia] |].
    intros [b ds1'] [b' ds2'] (Hb & H' & Hpos). simpl in Hb, H', Hpos. subst b'.
    destruct b.
    + simpl. repeat split; [apply H'.. | lia].
    + eapply sameResult_weaken; [apply IH; [done | lia] |].
      intros a1 a2 (? & ? & ?). split; [done | split; [done | lia]].
Qed.

Lemma slotLoop_same (remaining : nat) (ds1 ds2 : DayState) :
  sameDay hi ds1 ds2 -> (drawsPerSlot * remaining + position ds1 <= hi)%nat ->
  sameResult (fun ds1' ds2' =>
                sameDay hi ds1' ds2'
                /\ (position ds1' <= drawsPerSlot * remaining + position ds1)%nat)
    (slotLoop mains sides drinks minCalories maxCalories usedItemsForDay1
       currentDayIndex remaining ds1)
    (slotLoop mains sides drinks minCalories maxCalories usedItemsForDay1
       currentDayIndex remaining ds2).
Proof.
  pose proof (fun ds1 ds2 => attemptLoop_same maxAttemptsPerCombo 0 ds1 ds2) as Hslot.
  fold drawsPerSlot in Hslot. generalize dependent drawsPerSlot. intros perSlot Hslot.
  revert ds1 ds2. induction remaining as [| n IH]; intros ds1 ds2 H Hhi.
  - simpl. split; [done | lia].
  - rewrite !slotLoop_S. rewrite Nat.mul_succ_r in Hhi |- *.
    eapply sameResult_bind; [apply Hslot; [done | lia] |].
    intros [[a b] ds1'] [[a' b'] ds2'] ([= <- <-] & H' & Hpos).
    cbn [fst snd] in H', Hpos.
    destruct b.
    + eapply sameResult_weaken; [apply IH; [done | lia] |].
      intros a1 a2 (? & ?). split; [done | lia].
    + simpl. split; [done | lia].
Qed.
End SameDraws.

Lemma generateDailyCombos_same (hi : nat) (categorizedMenu : gmap string (list MenuItem))
    (numCombosPerDay minCalories maxCalories : Z) (usedItemsForDay1 : MapPtr)
    (currentDayIndex : Z) (st1 st2 : Store) :
  sameStore hi st1 st2 ->
  (drawsPerSlot * Z.to_nat numCombosPerDay + used (randSource st1) <= hi)%nat ->
  sameResult (fun a1 a2 =>
                fst a1 = fst a2 /\ sameStore hi (snd a1) (snd a2)
                /\ (used (randSource (snd a1))
                    <= drawsPerSlot * Z.to_nat numCombosPerDay + used (randSource st1))%nat)
    (generateDailyCombos categorizedMenu numCombosPerDay minCalories maxCalories
       usedItemsForDay1 currentDayIndex st1)
    (generateDailyCombos categorizedMenu numCombosPerDay minCalories maxCalories
       usedItemsForDay1 currentDayIndex st2).
Proof.
  intros H Hhi. unfold generateDailyCombos.
  destruct (_ || _ || _).
  - split; [reflexivity |]. split; [exact H |]. cbn [snd]. lia.
  - eapply sameResult_bind;
      [apply (slotLoop_same hi); [by split; [| split] | exact Hhi] |].
    intros ds1 ds2 ((Hcombos & _ & Hstore) & Hpos).
    split; [exact Hcombos |]. split; [exact Hstore | exact Hpos].
Qed.

Lemma dayLoop_same (hi : nat) (categorizedMenu : gmap string (list MenuItem))
    (numCombosPerDay minCalories maxCalories : Z) (remaining : nat) (dayIndex : Z)
    (fullMenuPlan : list DailyMenu) (st1 st2 : Store) :
  sameStore hi st1 st2 ->
  (drawsPerSlot * Z.to_nat numCombosPerDay * remaining + used (randSource st1)
   <= hi)%nat ->
  sameResult (fun a1 a2 => fst a1 = fst a2)
    (dayLoop categorizedMenu numCombosPerDay minCalories maxCalories remaining
       dayIndex fullMenuPlan st1)
    (dayLoop categorizedMenu numCombosPerDay minCalories maxCalories remaining
       dayIndex fullMenuPlan st2).
Proof.
  revert dayIndex fullMenuPlan st1 st2.
  induction remaining as [| n IH]; intros dayIndex fullMenuPlan st1 st2 H Hhi.
  - done.
  - simpl dayLoop. rewrite Nat.mul_succ_r in Hhi.
    eapply sameResult_bind with
      (R := fun a1 a2 =>
              fst a1 = fst a2 /\ sameStore hi (snd a1) (snd a2)
              /\ (used (randSource (snd a1))
                  <= drawsPerSlot * Z.to_nat numCombosPerDay
                     + used (randSource st1))%nat).
    + unfold generateDay.
      apply (sameResult_bind (=)); [apply sameResult_refl |]. intros name ? <-.
      eapply sameResult_bind; [apply generateDailyCombos_same; [exact H | lia] |].
      intros [combos1 st1'] [combos2 st2'] (Hc & Hs & Hpos).
      cbn [fst snd] in Hc, Hs, Hpos. subst combos2.
      split; [reflexivity |]. split; [exact Hs | exact Hpos].
    + intros [plan1 st1'] [plan2 st2'] (Hp & Hs & Hpos).
      cbn [fst snd] in Hp, Hs, Hpos. subst plan2. apply IH; [exact Hs | lia].
Qed.

(** C9: with the same catalog and the same arguments, two runs whose
    sources deliver the same values give the same plan, or the same
    panic; only the values a run can consume count, three for each of
    the 5000 attempts of each slot of each day.  The draws are the only
    thing a run depends on besides its inputs. *)
Theorem same_draws_same_plan (masterMenu : list MenuItem)
    (numDays numCombosPerDay minCalories maxCalories : Z) (seeded1 seeded2 : Source) :
  used seeded1 = used seeded2 ->
  (forall i,
      (used seeded1 <= i < used seeded1 + drawsOfRun numDays numCombosPerDay)%nat ->
      raw seeded1 i = raw seeded2 i) ->
  generateMenuSuggestions masterMenu numDays numCombosPerDay minCalories maxCalories
    seeded1
  = generateMenuSuggestions masterMenu numDays numCombosPerDay minCalories maxCalories
      seeded2.
Proof.
  intros Hused Hraw. unfold generateMenuSuggestions, runWeek.
  pose proof (dayLoop_same (used seeded1 + drawsOfRun numDays numCombosPerDay)
                (categorizeMenu masterMenu) numCombosPerDay minCalories
                maxCalories (Z.to_nat numDays) 0 [] (initialStore seeded1)
                (initialStore seeded2)) as H.
  assert (Hsame : sameStore (used seeded1 + drawsOfRun numDays numCombosPerDay)
                    (initialStore seeded1) (initialStore seeded2))
    by (split; [| split; [| split; [| split]]]; try reflexivity; assumption).
  specialize (H Hsame). unfold drawsOfRun in H. cbn [initialStore randSource] in H.
  specialize (H ltac:(lia)).
  destruct (dayLoop _ _ _ _ _ _ _ (initialStore seeded1)) as [[plan1 st1] | msg1],
           (dayLoop _ _ _ _ _ _ _ (initialStore seeded2)) as [[plan2 st2] | msg2];
    cbn [sameResult fst] in H; try contradiction; by subst.
Qed.

Lemma same_draws_same_plan_witness :
  generateMenuSuggestions sampleMenu 1 2 550 800 (sourceOnes 0)
  = generateMenuSuggestions sampleMenu 1 2 550 800 (sourceOnes (drawsOfRun 1 2)).
Proof.
  apply (same_draws_same_plan sampleMenu 1 2 550 800
           (sourceOnes 0) (sourceOnes (drawsOfRun 1 2))).
  - reflexivity.
  - intros i. cbn [sourceOnes raw used]. generalize (drawsOfRun 1 2). intros n Hi.
    destruct (Nat.ltb_spec i 3); [reflexivity |].
    destruct (Nat.leb_spec n i); [lia | reflexivity].
Defined.

(** ** The order of [sort.Strings] *)

Lemma ascii_compare_trans (a b c : ascii) (o : comparison) :
  Ascii.compare a b = o -> Ascii.compare b c = o -> Ascii.compare a c = o.
Proof.
  unfold Ascii.compare. intros Hab Hbc. destruct o.
  - apply N.compare_eq_iff in Hab, Hbc. apply N.compare_eq_iff. congruence.
  - apply N.compare_lt_iff in Hab. apply N.compare_lt_iff in Hbc.
    apply N.compare_lt_iff. by etransitivity.
  - apply N.compare_gt_iff in Hab. apply N.compare_gt_iff in Hbc.
    apply N.compare_gt_iff. by etransitivity.
Qed.

Lemma string_compare_lt_trans (s1 s2 s3 : string) :
  String.compare s1 s2 = Lt -> String.compare s2 s3 = Lt -> String.compare s1 s3 = Lt.
Proof.
  revert s2 s3. induction s1 as [| a s1 IH]; intros [| b s2] [| c s3]; simpl; try done.
  destruct (Ascii.compare a b) eqn:Hab; try done.
  - apply Ascii.compare_eq_iff in Hab as ->.
    destruct (Ascii.compare b c); try done. apply IH.
  - destruct (Ascii.compare b c) eqn:Hbc; try done.
    + apply Ascii.compare_eq_iff in Hbc as <-. by rewrite Hab.
    + by rewrite (ascii_compare_trans _ _ _ _ Hab Hbc).
Qed.

Lemma notAfter_leb (x y : string) : notAfter x y <-> String.leb x y = true.
Proof.
  unfold notAfter, String.ltb, String.leb. rewrite (String.compare_antisym x y).
  by destruct (String.compare y x).
Qed.

#[global] Instance notAfter_antisym : AntiSymm (=) notAfter.
Proof. intros x y Hxy%notAfter_leb Hyx%notAfter_leb. by apply String.leb_antisym. Qed.

#[global] Instance notAfter_trans : Transitive notAfter.
Proof.
  intros x y z. unfold notAfter, String.ltb. intros Hxy Hyz.
  destruct (String.compare z x) eqn:Hzx; try done.
  destruct (String.compare y x) eqn:Hyx; try done.
  - apply String.compare_eq_iff in Hyx as ->. by rewrite Hzx in Hyz.
  - rewrite (String.compare_antisym y x) in Hyx.
    destruct (String.compare x y) eqn:Hxy'; try done.
    by rewrite (string_compare_lt_trans _ _ _ Hzx Hxy') in Hyz.
Qed.

Lemma notAfter_total (x y : string) : notAfter x y \/ notAfter y x.
Proof. rewrite !notAfter_leb. apply String.leb_total. Qed.

(** The sorted prefix, kept reversed, stays sorted and keeps its
    elements when one more is inserted. *)
Lemma insert_left_sorted (x : string) (rev_prefix : list string) :
  StronglySorted (flip notAfter) rev_prefix ->
  StronglySorted (flip notAfter) (insert_left String.ltb x rev_prefix).
Proof.
  induction rev_prefix as [| y r IH]; intros Hs; simpl.
  - repeat constructor.
  - apply StronglySorted_inv in Hs as [Hr Hy].
    destruct (String.ltb x y) eqn:Hxy.
    + constructor; [by apply IH |].
      assert (Hin : forall z, z ∈ insert_left String.ltb x r -> z = x \/ z ∈ r).
      { clear. induction r as [| w r IH]; simpl; intros z Hz.
        - apply list_elem_of_singleton in Hz. by left.
        - destruct (String.ltb x w).
          + apply elem_of_cons in Hz as [-> | Hz]; [right; apply list_elem_of_here |].
            destruct (IH z Hz) as [-> | ?]; [by left | right; by apply list_elem_of_further].
          + apply elem_of_cons in Hz as [-> | Hz]; [by left | by right]. }
      apply Forall_forall. intros z Hz. destruct (Hin z Hz) as [-> | Hzr].
      * unfold flip. apply notAfter_leb. unfold String.leb, String.ltb in *.
        by destruct (String.compare x y).
      * rewrite Forall_forall in Hy. by apply Hy.
    + constructor; [by constructor |].
      constructor; [exact Hxy |].
      eapply Forall_impl; [exact Hy |]. intros z Hz. unfold flip in *.
      by transitivity y.
Qed.

Lemma insert_left_perm {A : Type} (less : A -> A -> bool) (x : A) (rev_prefix : list A) :
  insert_left less x rev_prefix ≡ₚ x :: rev_prefix.
Proof.
  induction rev_prefix as [| y r IH]; simpl; [done |].
  destruct (less x y); [| done]. rewrite IH. apply perm_swap.
Qed.

(** [sort.Strings] returns its input rearranged in increasing order. *)
Lemma sort_Strings_sorted (xs : list string) :
  StronglySorted notAfter (sort_Strings xs) /\ sort_Strings xs ≡ₚ xs.
Proof.
  unfold sort_Strings, insertion_sort.
  assert (H : forall acc,
             StronglySorted (flip notAfter) acc ->
             StronglySorted (flip notAfter)
               (fold_left (fun acc x => insert_left String.ltb x acc) xs acc)
             /\ fold_left (fun acc x => insert_left String.ltb x acc) xs acc
                ≡ₚ rev xs ++ acc).
  { induction xs as [| x xs IH]; intros acc Hacc; simpl; [done |].
    destruct (IH (insert_left String.ltb x acc)) as [Hs Hp];
      [by apply insert_left_sorted |].
    split; [done |]. rewrite Hp, insert_left_perm. simpl.
    by rewrite <- app_assoc. }
  destruct (H []) as [Hs Hp]; [constructor |]. split.
  - revert Hs. generalize (fold_left (fun acc x => insert_left String.ltb x acc) xs []).
    intros l. induction 1 as [| y l Hl IH Hy]; simpl; [constructor |].
    apply StronglySorted_app_2; [| done | repeat constructor].
    intros z w Hz%list_elem_of_In%in_rev%list_elem_of_In ->%list_elem_of_singleton.
    rewrite Forall_forall in Hy. by apply Hy.
  - by rewrite <- (Permutation_rev (fold_left _ xs [])), Hp, app_nil_r,
         <- (Permutation_rev xs).
Qed.

(** X1: the signature does not depend on the order of the three names:
    the same names in any order give the same signature. *)
Theorem comboSignature_any_order (a b c a' b' c' : string) :
  [a; b; c] ≡ₚ [a'; b'; c'] ->
  comboSignature a b c = comboSignature a' b' c'.
Proof.
  intros Hperm. unfold comboSignature. f_equal.
  destruct (sort_Strings_sorted [a; b; c]) as [Hs1 Hp1],
           (sort_Strings_sorted [a'; b'; c']) as [Hs2 Hp2].
  apply (StronglySorted_unique notAfter); [done | done |].
  by rewrite Hp1, Hp2.
Qed.

Lemma comboSignature_any_order_witness :
  comboSignature "Fries" "Water" "Veggie Burger"
  = comboSignature "Veggie Burger" "Fries" "Water".
Proof.
  apply (comboSignature_any_order "Fries" "Water" "Veggie Burger"
           "Veggie Burger" "Fries" "Water").
  rewrite (Permutation_cons_append ["Fries"; "Water"] "Veggie Burger"). done.
Defined.

(** ** More on [categorizeMenu] *)

Lemma categorizeMenu_lookup (items : list MenuItem) (k : string) :
  categorizeMenu items !! k
  = match filter (fun item => Category item = k) items with
    | [] => None
    | pool => Some pool
    end.
Proof.
  unfold categorizeMenu.
  assert (H : forall acc,
             fold_left
               (fun categorized item =>
                  <[Category item := get_items categorized (Category item) ++ [item]]>
                    categorized) items acc !! k
             = match filter (fun item => Category item = k) items with
               | [] => acc !! k
               | pool => Some (get_items acc k ++ pool)
               end).
  { induction items as [| x items IH]; intros acc; simpl; [done |].
    rewrite IH, filter_cons, get_items_insert, lookup_insert.
    destruct (decide (Category x = k)) as [-> | Hne].
    - destruct (filter _ items); [done |]. simpl. by rewrite <- app_assoc.
    - done. }
  rewrite H. by destruct (filter _ items).
Qed.

(** X2: [categorizeMenu] keeps every item exactly once, in the order of
    the catalog, under its own category and nowhere else; a category is
    a key of the map exactly when an item has it, and no pool is
    empty. *)
Theorem categorizeMenu_partitions (items : list MenuItem) :
  (forall k, get_items (categorizeMenu items) k
             = filter (fun item => Category item = k) items)
  /\ (forall k, categorizeMenu items !! k = None
                <-> forall item, item ∈ items -> Category item <> k)
  /\ (forall k pool, categorizeMenu items !! k = Some pool -> pool <> [])
  /\ (forall item k, item ∈ get_items (categorizeMenu items) k
                     <-> item ∈ items /\ Category item = k).
Proof.
  split; [apply get_items_categorizeMenu |]. split; [| split].
  - intros k. rewrite categorizeMenu_lookup. split.
    + destruct (filter _ items) as [| x pool] eqn:Hf; [| done].
      intros _ item Hitem Hk.
      assert (Hin : item ∈ filter (fun item => Category item = k) items)
        by by apply list_elem_of_filter.
      rewrite Hf in Hin. by apply elem_of_nil in Hin.
    + intros Hnone. destruct (filter _ items) as [| x pool] eqn:Hf; [done |].
      assert (Hin : x ∈ filter (fun item => Category item = k) items)
        by (rewrite Hf; apply list_elem_of_here).
      apply list_elem_of_filter in Hin as [Hk Hx]. by destruct (Hnone x Hx).
  - intros k pool. rewrite categorizeMenu_lookup.
    destruct (filter _ items); [done |]. by intros [= <-].
  - intros item k. apply elem_of_pool.
Qed.

(** ** More on [generateReasoning] *)

Lemma tasteProfiles_lookup (p1 p2 p3 q : string) :
  (<[p3 := true]> (<[p2 := true]> (<[p1 := true]> (∅ : gmap string bool)))) !! q
  = if bool_decide (q ∈ [p1; p2; p3]) then Some true else None.
Proof.
  rewrite !lookup_insert, lookup_empty.
  repeat case_decide; subst; case_bool_decide; try done; exfalso;
    elem_of_cases; intuition congruence.
Qed.

(** X3: the reasoning string depends on the items only through the set
    of their taste profiles: neither the roles of the items nor the
    number of items that share a profile matter. *)
Theorem generateReasoning_profiles_only (a b c a' b' c' : MenuItem)
    (totalCalories : Z) (avgPopularity : float) :
  (forall q, q ∈ [TasteProfile a; TasteProfile b; TasteProfile c]
             <-> q ∈ [TasteProfile a'; TasteProfile b'; TasteProfile c']) ->
  generateReasoning a b c totalCalories avgPopularity
  = generateReasoning a' b' c' totalCalories avgPopularity.
Proof.
  intros Hset. unfold generateReasoning, tasteDescription.
  replace (<[TasteProfile c' := true]>
             (<[TasteProfile b' := true]> (<[TasteProfile a' := true]> ∅)))
    with (<[TasteProfile c := true]>
            (<[TasteProfile b := true]>
               (<[TasteProfile a := true]> (∅ : gmap string bool)))); [done |].
  apply map_eq. intros q. rewrite !tasteProfiles_lookup.
  by rewrite (bool_decide_ext _ _ (Hset q)).
Qed.

Lemma generateReasoning_profiles_only_witness :
  generateReasoning veggieBurger fries water 650 8%float
  = generateReasoning water water fries 650 8%float.
Proof.
  apply (generateReasoning_profiles_only veggieBurger fries water water water fries).
  intros q. cbn [TasteProfile veggieBurger fries water].
  rewrite !elem_of_cons, !elem_of_nil. tauto.
Defined.

(** ** [calculateComboMetrics] *)

(** X4: the total of [calculateComboMetrics] is the sum of the three
    calorie values reduced once to the 64 bits of an [int], whatever
    the intermediate sum does; so it is the same for the three items
    in any order. *)
Theorem total_calories_wrap_once (main side drink : MenuItem) :
  fst (calculateComboMetrics main side drink)
  = wrap64 (Calories main + Calories side + Calories drink)
  /\ is_int (fst (calculateComboMetrics main side drink))
  /\ fst (calculateComboMetrics main side drink)
     = fst (calculateComboMetrics drink main side)
  /\ fst (calculateComboMetrics main side drink)
     = fst (calculateComboMetrics side main drink).
Proof.
  assert (Hwrap : forall a b c, int_add (int_add a b) c = wrap64 (a + b + c)).
  { intros a b c. unfold int_add, wrap64.
    replace (((a + b + 2 ^ 63) mod 2 ^ 64 - 2 ^ 63 + c + 2 ^ 63))
      with ((a + b + 2 ^ 63) mod 2 ^ 64 + c) by lia.
    rewrite Zplus_mod_idemp_l. do 2 f_equal. lia. }
  unfold calculateComboMetrics. cbn [fst]. rewrite !Hwrap.
  split; [done |]. split.
  - unfold is_int, wrap64.
    pose proof (Z.mod_pos_bound (Calories main + Calories side + Calories drink + 2 ^ 63)
                  (2 ^ 64) ltac:(lia)). lia.
  - split; f_equal; lia.
Qed.

(** ** The size of a day *)

Lemma slotLoop_length (mains sides drinks : list MenuItem)
    (minCalories maxCalories : Z) (usedItemsForDay1 : MapPtr) (currentDayIndex : Z)
    (remaining : nat) (ds ds' : DayState) :
  mains <> [] -> sides <> [] -> drinks <> [] ->
  slotLoop mains sides drinks minCalories maxCalories usedItemsForDay1
    currentDayIndex remaining ds = Ok ds' ->
  (length (dailyCombos ds') <= length (dailyCombos ds) + remaining)%nat.
Proof.
  intros Hm Hs Hd. revert ds.
  induction remaining as [| n IH]; intros ds Hloop.
  - injection Hloop as <-. lia.
  - rewrite slotLoop_S in Hloop.
    destruct (attemptLoop_spec mains sides drinks minCalories maxCalories
                usedItemsForDay1 currentDayIndex Hm Hs Hd maxAttemptsPerCombo 0 ds)
      as [Heq | (k & m & s & dr & _ & _ & _ & _ & _ & Heq)];
      [lia | rewrite maxAttemptsPerCombo_Z; lia | |]; rewrite Heq in Hloop.
    + injection Hloop as <-. cbn [skip with_source dailyCombos]. lia.
    + apply IH in Hloop.
      cbn [acceptCombo skip with_source dailyCombos] in Hloop.
      rewrite length_app in Hloop. simpl in Hloop. lia.
Qed.

Lemma generateDailyCombos_length (categorizedMenu : gmap string (list MenuItem))
    (numCombosPerDay minCalories maxCalories : Z) (usedItemsForDay1 : MapPtr)
    (currentDayIndex : Z) (st st' : Store) (combos : list Combo) :
  generateDailyCombos categorizedMenu numCombosPerDay minCalories maxCalories
    usedItemsForDay1 currentDayIndex st = Ok (combos, st') ->
  (length combos <= Z.to_nat numCombosPerDay)%nat.
Proof.
  unfold generateDailyCombos.
  destruct (get_items categorizedMenu "main") as [| m0 ms] eqn:Em;
    [intros [= <- _]; simpl; lia |].
  destruct (get_items categorizedMenu "side") as [| s0 ss] eqn:Es;
    [intros [= <- _]; simpl; lia |].
  destruct (get_items categorizedMenu "drink") as [| d0 dd] eqn:Ed;
    [intros [= <- _]; simpl; lia |].
  cbn [length Z.of_nat Z.eqb orb].
  destruct (slotLoop _ _ _ _ _ _ _ _ _) as [ds' |] eqn:Hloop; [| done].
  intros [= <- _].
  apply slotLoop_length in Hloop; [| done..]. simpl in Hloop. lia.
Qed.

(** What holds of the combos of every call of [generateDailyCombos]
    holds of every day of a plan. *)
Lemma dayLoop_days (categorizedMenu : gmap string (list MenuItem))
    (numCombosPerDay minCalories maxCalories : Z) (P : list Combo -> Prop) :
  (forall ptr d st combos st',
      generateDailyCombos categorizedMenu numCombosPerDay minCalories maxCalories
        ptr d st = Ok (combos, st') -> P combos) ->
  forall remaining dayIndex fullMenuPlan st plan st',
    dayLoop categorizedMenu numCombosPerDay minCalories maxCalories remaining
      dayIndex fullMenuPlan st = Ok (plan, st') ->
    Forall (fun day => P (Combos day)) fullMenuPlan ->
    Forall (fun day => P (Combos day)) plan.
Proof.
  intros HP. induction remaining as [| n IH]; intros d plan0 st plan st' Hloop Hplan0.
  - by injection Hloop as <- <-.
  - simpl in Hloop. unfold generateDay in Hloop at 1.
    destruct (index dayNames d) as [name |]; [| done]. simpl in Hloop.
    destruct (generateDailyCombos _ _ _ _ _ _ _) as [[combos st1] |] eqn:Hgen;
      [| done].
    simpl in Hloop. apply IH in Hloop; [done |].
    apply Forall_app. split; [done |]. apply Forall_singleton. simpl.
    by eapply HP.
Qed.

Lemma namesApart_NoDup (proj : Combo -> string) (combos : list Combo) :
  (forall c, proj c ∈ comboNames c) ->
  namesApart combos -> NoDup (map proj combos).
Proof.
  intros Hproj Hapart. apply NoDup_alt. intros i j x Hi Hj.
  change (map proj combos) with (proj <$> combos) in Hi, Hj.
  rewrite list_lookup_fmap in Hi, Hj.
  destruct (combos !! i) as [ci |] eqn:Hci; [| done].
  destruct (combos !! j) as [cj |] eqn:Hcj; [| done].
  simpl in Hi, Hj. injection Hi as Hi. injection Hj as Hj.
  destruct (decide (i = j)) as [| Hne]; [done |].
  destruct (Hapart i j ci cj x Hci Hcj Hne); [rewrite <- Hi | rewrite <- Hj]; apply Hproj.
Qed.

Lemma plan_days_sizes (masterMenu : list MenuItem)
    (numDays numCombosPerDay minCalories maxCalories : Z) (seeded : Source)
    (plan : list DailyMenu) (st : Store) :
  runWeek masterMenu numDays numCombosPerDay minCalories maxCalories seeded
    = Ok (plan, st) ->
  Forall (fun day => (length (Combos day) <= Z.to_nat numCombosPerDay)%nat) plan.
Proof.
  intros Hrun. unfold runWeek in Hrun.
  eapply (dayLoop_days _ _ _ _
            (fun combos => (length combos <= Z.to_nat numCombosPerDay)%nat));
    [| exact Hrun | by apply Forall_nil].
  intros. by eapply generateDailyCombos_length.
Qed.

(** X5: no day of a plan has more combos than the slots asked for (none
    when that number is zero or negative), nor more than there are
    mains, sides or drinks in the catalog. *)
Theorem day_size_is_bounded (masterMenu : list MenuItem)
    (numDays numCombosPerDay minCalories maxCalories : Z) (seeded : Source)
    (plan : MenuPlan) (i : nat) (day : DailyMenu) :
  generateMenuSuggestions masterMenu numDays numCombosPerDay minCalories maxCalories seeded
    = Ok plan ->
  MenuPlan_MenuPlan plan !! i = Some day ->
  (length (Combos day) <= Z.to_nat numCombosPerDay)%nat
  /\ (length (Combos day)
      <= length (filter (fun item => Category item = "main") masterMenu))%nat
  /\ (length (Combos day)
      <= length (filter (fun item => Category item = "side") masterMenu))%nat
  /\ (length (Combos day)
      <= length (filter (fun item => Category item = "drink") masterMenu))%nat.
Proof.
  intros [st Hrun]%generateMenuSuggestions_Ok Hday.
  pose proof (list_elem_of_lookup_2 _ _ _ Hday) as Hin.
  split.
  - pose proof (plan_days_sizes _ _ _ _ _ _ _ _ Hrun) as Hsizes.
    rewrite Forall_forall in Hsizes. by apply Hsizes.
  - pose proof (plan_days_namesApart _ _ _ _ _ _ _ _ Hrun) as Hapart.
    pose proof (plan_combos_built _ _ _ _ _ _ _ _ Hrun) as Hbuilt.
    rewrite Forall_forall in Hapart. specialize (Hapart day Hin).
    rewrite Forall_forall in Hbuilt.
    assert (Hc : forall c, c ∈ Combos day ->
               builtFrom (categorizeMenu masterMenu) minCalories maxCalories c).
    { intros c Hc. apply list_elem_of_lookup_1 in Hc as [j Hj].
      apply Hbuilt. by eapply elem_of_allCombos. }
    rewrite <- !get_items_categorizeMenu.
    assert (Hbound : forall (proj : Combo -> string) (pool : list MenuItem),
               (forall c, proj c ∈ comboNames c) ->
               (forall c, c ∈ Combos day -> proj c ∈ map ItemName pool) ->
               (length (Combos day) <= length pool)%nat).
    { intros proj pool Hproj Hpool.
      rewrite <- (length_map proj (Combos day)), <- (length_map ItemName pool).
      apply submseteq_length, NoDup_submseteq; [by apply namesApart_NoDup |].
      intros x (c & -> & Hx)%list_elem_of_fmap. by apply Hpool. }
    split; [| split].
    + apply (Hbound Main); [intros c; unfold comboNames; solve_elem_of |].
      intros c (m & s & dr & n & Hm & _ & _ & _ & ->)%Hc.
      cbn [buildCombo Main Side Drink]. by apply (list_elem_of_fmap_2 ItemName).
    + apply (Hbound Side); [intros c; unfold comboNames; solve_elem_of |].
      intros c (m & s & dr & n & _ & Hs & _ & _ & ->)%Hc.
      cbn [buildCombo Main Side Drink]. by apply (list_elem_of_fmap_2 ItemName).
    + apply (Hbound Drink); [intros c; unfold comboNames; solve_elem_of |].
      intros c (m & s & dr & n & _ & _ & Hdr & _ & ->)%Hc.
      cbn [buildCombo Main Side Drink]. by apply (list_elem_of_fmap_2 ItemName).
Qed.

Lemma day_size_is_bounded_witness :
  exists plan day,
    generateMenuSuggestions sampleMenu 1 2 550 800 (sourceOf [0; 0; 0; 1; 1; 1]) = Ok plan
    /\ MenuPlan_MenuPlan plan !! 0%nat = Some day
    /\ (length (Combos day) <= Z.to_nat 2)%nat
    /\ (length (Combos day)
        <= length (filter (fun item => Category item = "main") sampleMenu))%nat
    /\ (length (Combos day)
        <= length (filter (fun item => Category item = "side") sampleMenu))%nat
    /\ (length (Combos day)
        <= length (filter (fun item => Category item = "drink") sampleMenu))%nat.
Proof.
  eexists _, _.
  split; [vm_compute; reflexivity |]. split; [reflexivity |].
  eapply (day_size_is_bounded sampleMenu 1 2 550 800 (sourceOf [0; 0; 0; 1; 1; 1])
            _ 0%nat); [vm_compute; reflexivity | reflexivity].
Defined.

(** ** The first accepted draw *)

Lemma advance_0 (src : Source) : advance 0 src = src.
Proof. by destruct src. Qed.

Lemma drawItems_Ok_source (mains sides drinks : list MenuItem) (src src' : Source)
    (m s d : MenuItem) :
  drawItems mains sides drinks src = Ok (m, s, d, src') -> src' = advance 3 src.
Proof.
  unfold drawItems, rand_Intn, index.
  destruct (Z.of_nat (length mains) <=? 0); [done |]. simpl.
  destruct (_ && _); [| done]. destruct (mains !! _); [| done]. simpl.
  destruct (Z.of_nat (length sides) <=? 0); [done |]. simpl.
  destruct (_ && _); [| done]. destruct (sides !! _); [| done]. simpl.
  destruct (Z.of_nat (length drinks) <=? 0); [done |]. simpl.
  destruct (_ && _); [| done]. destruct (drinks !! _); [| done]. simpl.
  unfold mret, result_ret. by intros [= _ _ _ <-].
Qed.

(** X6: the inner loop takes the first draw that passes the checks: when
    the draws of the passes before the [k]-th are refused and the
    [k]-th is accepted, the slot gets that combo, the count of attempts
    is [k + 1], and of the refused draws nothing remains but the values
    consumed. *)
Theorem first_accepted_draw_fills_the_slot (mains sides drinks : list MenuItem)
    (minCalories maxCalories : Z) (usedItemsForDay1 : MapPtr) (currentDayIndex : Z)
    (remaining k : nat) (attempts : Z) (ds : DayState)
    (m s d : MenuItem) (src' : Source) :
  0 <= attempts -> attempts + Z.of_nat remaining < 2 ^ 63 -> (k < remaining)%nat ->
  (forall j, (j < k)%nat ->
     exists mj sj dj srcj,
       drawItems mains sides drinks (advance (3 * j) (randSource (store ds)))
         = Ok (mj, sj, dj, srcj)
       /\ accepts minCalories maxCalories usedItemsForDay1 currentDayIndex
            (currentDayUsedItems ds) (store ds) mj sj dj = false) ->
  drawItems mains sides drinks (advance (3 * k) (randSource (store ds)))
    = Ok (m, s, d, src') ->
  accepts minCalories maxCalories usedItemsForDay1 currentDayIndex
    (currentDayUsedItems ds) (store ds) m s d = true ->
  attemptLoop mains sides drinks minCalories maxCalories usedItemsForDay1
    currentDayIndex remaining attempts ds
  = Ok (attempts + Z.of_nat k + 1, true,
        acceptCombo usedItemsForDay1 currentDayIndex m s d (with_source src' ds)).
Proof.
  revert remaining attempts ds.
  induction k as [| k IH]; intros remaining attempts ds H0 Hmax Hk Hrej Hdraw Hacc;
    (destruct remaining as [| n]; [lia |]).
  - simpl attemptLoop. rewrite int_add_exact by (unfold is_int; lia).
    unfold attempt. rewrite advance_0 in Hdraw. rewrite Hdraw. simpl.
    change (accepts minCalories maxCalories usedItemsForDay1 currentDayIndex
              (currentDayUsedItems ds) (set_randSource src' (store ds)) m s d)
      with (accepts minCalories maxCalories usedItemsForDay1 currentDayIndex
              (currentDayUsedItems ds) (store ds) m s d).
    rewrite Hacc. simpl. unfold mret, result_ret. do 3 f_equal. lia.
  - simpl attemptLoop. rewrite int_add_exact by (unfold is_int; lia).
    destruct (Hrej 0%nat ltac:(lia)) as (m0 & s0 & d0 & src0 & Hdraw0 & Hacc0).
    rewrite advance_0 in Hdraw0.
    pose proof (drawItems_Ok_source _ _ _ _ _ _ _ _ Hdraw0) as Hsrc0.
    unfold attempt. rewrite Hdraw0. simpl.
    change (accepts minCalories maxCalories usedItemsForDay1 currentDayIndex
              (currentDayUsedItems ds) (set_randSource src0 (store ds)) m0 s0 d0)
      with (accepts minCalories maxCalories usedItemsForDay1 currentDayIndex
              (currentDayUsedItems ds) (store ds) m0 s0 d0).
    rewrite Hacc0. simpl. subst src0.
    change ({| dailyCombos := dailyCombos ds;
               currentDayUsedItems := currentDayUsedItems ds;
               store := set_randSource (advance 3 (randSource (store ds))) (store ds) |})
      with (skip 3 ds).
    rewrite (IH n (attempts + 1) (skip 3 ds)); try lia.
    + replace (attempts + 1 + Z.of_nat k + 1) with (attempts + Z.of_nat (S k) + 1) by lia.
      reflexivity.
    + intros j Hj. destruct (Hrej (S j) ltac:(lia)) as (mj & sj & dj & srcj & Hd & Ha).
      exists mj, sj, dj, srcj. split; [| exact Ha].
      cbn [skip with_source store set_randSource randSource].
      rewrite advance_advance. by replace (3 * j + 3)%nat with (3 * S j)%nat by lia.
    + cbn [skip with_source store set_randSource randSource].
      rewrite advance_advance. by replace (3 * k + 3)%nat with (3 * S k)%nat by lia.
    + exact Hacc.
Qed.

Lemma first_accepted_draw_fills_the_slot_witness :
  let mains := get_items (categorizeMenu sampleMenu) "main" in
  let sides := get_items (categorizeMenu sampleMenu) "side" in
  let drinks := get_items (categorizeMenu sampleMenu) "drink" in
  let ds := freshDay (initialStore (sourceOf [0; 0; 0; 0; 1; 1])) in
  exists m s d src',
    drawItems mains sides drinks (advance (3 * 1) (randSource (store ds)))
      = Ok (m, s, d, src')
    /\ map ItemName [m; s; d] = ["Veggie Burger"; "Salad"; "Tea"]
    /\ attemptLoop mains sides drinks 680 800 day1OverallUsedItemsPtr 0 5 0 ds
       = Ok (0 + Z.of_nat 1 + 1, true,
             acceptCombo day1OverallUsedItemsPtr 0 m s d (with_source src' ds)).
Proof.
  intros mains sides drinks ds.
  assert (Hdraw : exists m s d src',
             drawItems mains sides drinks (advance (3 * 1) (randSource (store ds)))
               = Ok (m, s, d, src')
             /\ map ItemName [m; s; d] = ["Veggie Burger"; "Salad"; "Tea"]
             /\ accepts 680 800 day1OverallUsedItemsPtr 0
                  (currentDayUsedItems ds) (store ds) m s d = true).
  { eexists _, _, _, _. split; [vm_compute; reflexivity |].
    split; vm_compute; reflexivity. }
  destruct Hdraw as (m & s & d & src' & Hdraw & Hnames & Hacc).
  exists m, s, d, src'. split; [exact Hdraw |]. split; [exact Hnames |].
  apply (first_accepted_draw_fills_the_slot mains sides drinks 680 800
           day1OverallUsedItemsPtr 0 5 1 0 ds m s d src');
    [lia | vm_compute; reflexivity | lia | | exact Hdraw | exact Hacc].
  intros j Hj. assert (j = 0%nat) as -> by lia.
  eexists _, _, _, _. split; [vm_compute; reflexivity |]. vm_compute. reflexivity.
Defined.

(** ** Panics *)

(** X7: [generateDailyCombos] never panics: the test of line 140 keeps
    [rand.Intn] from an empty pool, and every index drawn is within its
    pool. *)
Theorem generateDailyCombos_never_panics (categorizedMenu : gmap string (list MenuItem))
    (numCombosPerDay minCalories maxCalories : Z) (usedItemsForDay1 : MapPtr)
    (currentDayIndex : Z) (st : Store) :
  exists combos st',
    generateDailyCombos categorizedMenu numCombosPerDay minCalories maxCalories
      usedItemsForDay1 currentDayIndex st = Ok (combos, st').
Proof.
  unfold generateDailyCombos.
  destruct (get_items categorizedMenu "main") as [| m0 ms] eqn:Em; [by eexists _, _ |].
  destruct (get_items categorizedMenu "side") as [| s0 ss] eqn:Es; [by eexists _, _ |].
  destruct (get_items categorizedMenu "drink") as [| d0 dd] eqn:Ed; [by eexists _, _ |].
  simpl orb. cbv iota.
  destruct (slotLoop_rule (m0 :: ms) (s0 :: ss) (d0 :: dd) minCalories maxCalories
              usedItemsForDay1 currentDayIndex ltac:(done) ltac:(done) ltac:(done)
              (fun _ => True))
    with (remaining := Z.to_nat numCombosPerDay) (ds := freshDay st)
    as (ds & -> & _); try done.
  by eexists _, _.
Qed.

Lemma dayLoop_beyond_the_week (categorizedMenu : gmap string (list MenuItem))
    (numCombosPerDay minCalories maxCalories : Z) (remaining : nat) (d : Z)
    (plan : list DailyMenu) (st : Store) :
  0 <= d <= 7 -> 7 < d + Z.of_nat remaining ->
  dayLoop categorizedMenu numCombosPerDay minCalories maxCalories remaining d plan st
    = Panic "index out of range".
Proof.
  revert d plan st. induction remaining as [| n IH]; intros d plan st Hd Hn; [lia |].
  simpl dayLoop.
  destruct (decide (d = 7)) as [-> | Hne];
    [by rewrite generateDay_out_of_range by lia |].
  destruct (generateDay_rule categorizedMenu numCombosPerDay minCalories maxCalories
              (fun _ _ _ => True)) with (plan := plan) (d := d) (st := st)
    as (plan1 & st1 & -> & _); try done; [lia |].
  simpl. rewrite int_add_exact by (unfold is_int; lia).
  apply IH; lia.
Qed.

(** X8: a run over more than seven days panics, whatever the catalog
    and the draws: the days before the eighth are generated, then the
    name of the eighth is read from the seven of [dayNames]. *)
Theorem more_than_seven_days_panic (masterMenu : list MenuItem)
    (numDays numCombosPerDay minCalories maxCalories : Z) (seeded : Source) :
  7 < numDays ->
  generateMenuSuggestions masterMenu numDays numCombosPerDay minCalories maxCalories seeded
    = Panic "index out of range".
Proof.
  intros Hdays. unfold generateMenuSuggestions, runWeek.
  rewrite dayLoop_beyond_the_week by lia. reflexivity.
Qed.

Lemma more_than_seven_days_panic_witness :
  generateMenuSuggestions sodaMenu 30 3 550 800 (sourceOf []) = Panic "index out of range".
Proof. apply (more_than_seven_days_panic sodaMenu 30 3 550 800 (sourceOf [])). lia. Defined.

(** ** The first-day set *)

Section Day1Mirror.
Variables mains sides drinks : list MenuItem.
Variables minCalories maxCalories : Z.
Variable currentDayIndex : Z.

Lemma accepts_day1Mirror (ds1 ds2 : DayState) (m s d : MenuItem) (src : Source) :
  day1Mirror ds1 ds2 ->
  accepts minCalories maxCalories day1OverallUsedItemsPtr currentDayIndex
    (currentDayUsedItems ds1) (set_randSource src (store ds1)) m s d
  = accepts minCalories maxCalories nilPtr currentDayIndex
      (currentDayUsedItems ds2) (set_randSource src (store ds2)) m s d.
Proof.
  intros (_ & Hused & Hday1 & Hsigs & _ & _ & _).
  unfold accepts, isUniqueForDay1, isUniqueWithin3Days, isUniqueForCurrentDayItems.
  cbn [set_randSource day1OverallUsedItems allGeneratedComboSignatures].
  rewrite Hday1, <- Hsigs, <- Hused.
  by destruct (negb _).
Qed.

Lemma attempt_day1Mirror (ds1 ds2 : DayState) :
  day1Mirror ds1 ds2 ->
  sameResult (fun a1 a2 => fst a1 = fst a2 /\ day1Mirror (snd a1) (snd a2))
    (attempt mains sides drinks minCalories maxCalories day1OverallUsedItemsPtr
       currentDayIndex ds1)
    (attempt mains sides drinks minCalories maxCalories nilPtr currentDayIndex ds2).
Proof.
  intros H. pose proof H as (Hcombos & Hused & Hday1 & Hsigs & Hcounter & Hsrc & Hnil).
  unfold attempt. rewrite Hsrc.
  apply (sameResult_bind (=)); [apply sameResult_refl |].
  intros [[[m s] d] src] ? <-.
  cbn [currentDayUsedItems store].
  rewrite (accepts_day1Mirror ds1 ds2 m s d src H).
  destruct (accepts _ _ nilPtr _ _ _ _ _ _); simpl;
    (split; [reflexivity |]); unfold day1Mirror; simpl.
  all: repeat split; congruence.
Qed.

Lemma attemptLoop_day1Mirror (remaining : nat) (attempts : Z) (ds1 ds2 : DayState) :
  day1Mirror ds1 ds2 ->
  sameResult (fun a1 a2 => fst a1 = fst a2 /\ day1Mirror (snd a1) (snd a2))
    (attemptLoop mains sides drinks minCalories maxCalories day1OverallUsedItemsPtr
       currentDayIndex remaining attempts ds1)
    (attemptLoop mains sides drinks minCalories maxCalories nilPtr currentDayIndex
       remaining attempts ds2).
Proof.
  revert attempts ds1 ds2. induction remaining as [| n IH]; intros attempts ds1 ds2 H.
  - by split.
  - simpl attemptLoop.
    eapply sameResult_bind; [by apply attempt_day1Mirror |].
    intros [b ds1'] [b' ds2'] [Hb H']. simpl in Hb, H'. subst b'.
    destruct b; [by split | by apply IH].
Qed.

Lemma slotLoop_day1Mirror (remaining : nat) (ds1 ds2 : DayState) :
  day1Mirror ds1 ds2 ->
  sameResult day1Mirror
    (slotLoop mains sides drinks minCalories maxCalories day1OverallUsedItemsPtr
       currentDayIndex remaining ds1)
    (slotLoop mains sides drinks minCalories maxCalories nilPtr currentDayIndex
       remaining ds2).
Proof.
  revert ds1 ds2. induction remaining as [| n IH]; intros ds1 ds2 H; [done |].
  rewrite !slotLoop_S.
  eapply sameResult_bind; [by apply attemptLoop_day1Mirror |].
  intros [[a b] ds1'] [[a' b'] ds2'] [[= <- <-] H']. cbn [snd] in H'.
  destruct b; [by apply IH | done].
Qed.
End Day1Mirror.

(** X9: the test against the first-day set (lines 157-162) never refuses
    a draw that the test against the day's own set lets through: called
    with the set empty, as it is on Monday, [generateDailyCombos] gives
    the same combos, signatures, counter and source as it gives without
    the set. *)
Theorem first_day_set_is_redundant (categorizedMenu : gmap string (list MenuItem))
    (numCombosPerDay minCalories maxCalories : Z) (currentDayIndex : Z)
    (st st1 : Store) (combos : list Combo) :
  day1OverallUsedItems st = ∅ ->
  generateDailyCombos categorizedMenu numCombosPerDay minCalories maxCalories
    day1OverallUsedItemsPtr currentDayIndex st = Ok (combos, st1) ->
  exists st2,
    generateDailyCombos categorizedMenu numCombosPerDay minCalories maxCalories
      nilPtr currentDayIndex st = Ok (combos, st2)
    /\ day1OverallUsedItems st2 = ∅
    /\ allGeneratedComboSignatures st2 = allGeneratedComboSignatures st1
    /\ globalComboCounter st2 = globalComboCounter st1
    /\ randSource st2 = randSource st1.
Proof.
  intros Hempty. unfold generateDailyCombos.
  destruct (_ || _ || _); [intros [= <- <-]; by exists st |].
  pose proof (slotLoop_day1Mirror (get_items categorizedMenu "main")
                (get_items categorizedMenu "side") (get_items categorizedMenu "drink")
                minCalories maxCalories currentDayIndex (Z.to_nat numCombosPerDay)
                (freshDay st) (freshDay st)) as Hsame.
  destruct (slotLoop _ _ _ _ _ day1OverallUsedItemsPtr _ _ _) as [ds1 |]; [| done].
  intros [= <- <-].
  destruct (slotLoop _ _ _ _ _ nilPtr _ _ _) as [ds2 |];
    [| exfalso; apply Hsame; by repeat split].
  destruct Hsame as (Hcombos & _ & _ & Hsigs & Hcounter & Hsrc & Hnil); [by repeat split |].
  exists (store ds2). simpl. rewrite Hcombos. done.
Qed.

Lemma first_day_set_is_redundant_witness :
  exists combos st1 st2,
    generateDailyCombos (categorizeMenu sampleMenu) 2 550 800 day1OverallUsedItemsPtr 0
      (initialStore (sourceOf [0; 0; 0; 1; 1; 1])) = Ok (combos, st1)
    /\ length combos = 2%nat
    /\ generateDailyCombos (categorizeMenu sampleMenu) 2 550 800 nilPtr 0
         (initialStore (sourceOf [0; 0; 0; 1; 1; 1])) = Ok (combos, st2)
    /\ day1OverallUsedItems st2 = ∅
    /\ allGeneratedComboSignatures st2 = allGeneratedComboSignatures st1
    /\ globalComboCounter st2 = globalComboCounter st1
    /\ randSource st2 = randSource st1.
Proof.
  assert (Hrun : exists combos st1,
             generateDailyCombos (categorizeMenu sampleMenu) 2 550 800
               day1OverallUsedItemsPtr 0 (initialStore (sourceOf [0; 0; 0; 1; 1; 1]))
               = Ok (combos, st1)
             /\ length combos = 2%nat).
  { eexists _, _. split; vm_compute; reflexivity. }
  destruct Hrun as (combos & st1 & Hrun & Hlen).
  destruct (first_day_set_is_redundant (categorizeMenu sampleMenu) 2 550 800 0
              (initialStore (sourceOf [0; 0; 0; 1; 1; 1])) st1 combos)
    as (st2 & Hnil); [reflexivity | exact Hrun |].
  exists combos, st1, st2. split; [exact Hrun |]. split; [exact Hlen | exact Hnil].
Defined.

(** ** The values drawn *)

Lemma slotLoop_draws (mains sides drinks : list MenuItem)
    (minCalories maxCalories : Z) (usedItemsForDay1 : MapPtr) (currentDayIndex : Z)
    (remaining : nat) (ds ds' : DayState) :
  mains <> [] -> sides <> [] -> drinks <> [] ->
  slotLoop mains sides drinks minCalories maxCalories usedItemsForDay1
    currentDayIndex remaining ds = Ok ds' ->
  exists n,
    randSource (store ds') = advance n (randSource (store ds))
    /\ (3 * length (dailyCombos ds') <= 3 * length (dailyCombos ds) + n)%nat
    /\ (n <= drawsPerSlot * remaining)%nat.
Proof.
  intros Hm Hs Hd.
  assert (Hslot : forall ds,
             exists n (found : bool) a ds1,
               attemptLoop mains sides drinks minCalories maxCalories usedItemsForDay1
                 currentDayIndex maxAttemptsPerCombo 0 ds = Ok (a, found, ds1)
               /\ randSource (store ds1) = advance n (randSource (store ds))
               /\ (3 <= n <= drawsPerSlot)%nat
               /\ length (dailyCombos ds1)
                  = ((if found then 1 else 0) + length (dailyCombos ds))%nat).
  { intros ds0.
    destruct (attemptLoop_spec mains sides drinks minCalories maxCalories
                usedItemsForDay1 currentDayIndex Hm Hs Hd maxAttemptsPerCombo 0 ds0)
      as [Heq | (k & m & s & dr & [Hk1 Hk2] & _ & _ & _ & _ & Heq)];
      [lia | rewrite maxAttemptsPerCombo_Z; lia | |].
    - exists drawsPerSlot, false. eexists _, _. split; [exact Heq |].
      split; [reflexivity |]. split; [| reflexivity].
      split; [| apply Nat.le_refl].
      change (3 * 1 <= 3 * maxAttemptsPerCombo)%nat. apply Nat.mul_le_mono_l.
      unfold maxAttemptsPerCombo. apply Nat.lt_0_succ.
    - exists (3 * k)%nat, true. eexists _, _. split; [exact Heq |].
      split; [reflexivity |]. split.
      + split; [lia | by apply Nat.mul_le_mono_l].
      + cbn [acceptCombo dailyCombos skip with_source]. rewrite length_app.
        simpl. lia. }
  generalize dependent drawsPerSlot. intros perSlot Hslot.
  revert ds. induction remaining as [| r IH]; intros ds Hloop.
  - injection Hloop as <-. exists 0%nat. rewrite advance_0. split; [done | lia].
  - rewrite slotLoop_S in Hloop.
    destruct (Hslot ds) as (n & found & a & ds1 & Heq & Hsrc & Hn & Hlen).
    rewrite Heq in Hloop. cbn [mbind result_bind] in Hloop.
    destruct found.
    + apply IH in Hloop as (n' & Hsrc' & Hlen' & Hn').
      exists (n' + n)%nat. rewrite Hsrc', Hsrc, advance_advance.
      split; [done |]. split; [lia | nia].
    + injection Hloop as <-. exists n. split; [done |]. split; [lia | nia].
Qed.

Lemma generateDailyCombos_draws (categorizedMenu : gmap string (list MenuItem))
    (numCombosPerDay minCalories maxCalories : Z) (usedItemsForDay1 : MapPtr)
    (currentDayIndex : Z) (st st' : Store) (combos : list Combo) :
  generateDailyCombos categorizedMenu numCombosPerDay minCalories maxCalories
    usedItemsForDay1 currentDayIndex st = Ok (combos, st') ->
  exists n,
    randSource st' = advance n (randSource st)
    /\ (3 * length combos <= n)%nat
    /\ (n <= drawsPerSlot * Z.to_nat numCombosPerDay)%nat.
Proof.
  assert (Hnone : Ok ([], st) = Ok (combos, st') ->
            exists n, randSource st' = advance n (randSource st)
                      /\ (3 * length combos <= n)%nat
                      /\ (n <= drawsPerSlot * Z.to_nat numCombosPerDay)%nat).
  { intros [= <- <-]. exists 0%nat. rewrite advance_0.
    split; [done |]. split; [apply Nat.le_refl | apply Nat.le_0_l]. }
  unfold generateDailyCombos.
  destruct (get_items categorizedMenu "main") as [| m0 ms] eqn:Em; [exact Hnone |].
  destruct (get_items categorizedMenu "side") as [| s0 ss] eqn:Es; [exact Hnone |].
  destruct (get_items categorizedMenu "drink") as [| d0 dd] eqn:Ed; [exact Hnone |].
  clear Hnone. cbn [length Z.of_nat Z.eqb orb].
  destruct (slotLoop _ _ _ _ _ _ _ _ _) as [ds' |] eqn:Hloop; [| done].
  intros [= <- <-].
  apply slotLoop_draws in Hloop as (n & Hsrc & Hlen & Hn); [| done..].
  exists n. split; [exact Hsrc |]. split; [| exact Hn].
  cbn [freshDay dailyCombos length] in Hlen.
  by rewrite Nat.mul_0_r in Hlen.
Qed.

Lemma dayLoop_draws (categorizedMenu : gmap string (list MenuItem))
    (numCombosPerDay minCalories maxCalories : Z) (remaining : nat) (dayIndex : Z)
    (fullMenuPlan plan : list DailyMenu) (st st' : Store) :
  dayLoop categorizedMenu numCombosPerDay minCalories maxCalories remaining
    dayIndex fullMenuPlan st = Ok (plan, st') ->
  exists n,
    randSource st' = advance n (randSource st)
    /\ (3 * length (allCombos plan) <= 3 * length (allCombos fullMenuPlan) + n)%nat
    /\ (n <= drawsPerSlot * Z.to_nat numCombosPerDay * remaining)%nat.
Proof.
  pose proof (fun ptr d st st' combos =>
                generateDailyCombos_draws categorizedMenu numCombosPerDay minCalories
                  maxCalories ptr d st st' combos) as Hday.
  generalize dependent drawsPerSlot. intros perSlot Hday.
  revert dayIndex fullMenuPlan st.
  induction remaining as [| r IH]; intros d plan0 st Hloop.
  - injection Hloop as <- <-. exists 0%nat. rewrite advance_0. split; [done | lia].
  - simpl dayLoop in Hloop. unfold generateDay in Hloop at 1.
    destruct (index dayNames d) as [name |]; [| done].
    cbn [mbind result_bind] in Hloop.
    destruct (generateDailyCombos _ _ _ _ _ _ _) as [[combos st1] |] eqn:Hgen; [| done].
    cbn [mbind result_bind mret result_ret] in Hloop.
    apply Hday in Hgen as (n1 & Hsrc1 & Hlen1 & Hn1).
    apply IH in Hloop as (n & Hsrc & Hlen & Hn).
    exists (n + n1)%nat. rewrite Hsrc, Hsrc1, advance_advance.
    split; [done |].
    rewrite allCombos_snoc, length_app in Hlen. cbn [Combos] in Hlen.
    split; [lia | nia].
Qed.

(** X10: a run only moves its source forward: when it ends, the source
    has delivered [n] more values than at the start, three at least
    for every combo of the plan and no more than three for each of the
    5000 attempts of every slot of every day. *)
Theorem draws_of_a_run_are_bounded (masterMenu : list MenuItem)
    (numDays numCombosPerDay minCalories maxCalories : Z) (seeded : Source)
    (plan : list DailyMenu) (st : Store) :
  runWeek masterMenu numDays numCombosPerDay minCalories maxCalories seeded
    = Ok (plan, st) ->
  exists n,
    randSource st = advance n seeded
    /\ (3 * length (allCombos plan) <= n)%nat
    /\ (n <= drawsOfRun numDays numCombosPerDay)%nat.
Proof.
  intros Hrun. unfold runWeek in Hrun.
  apply dayLoop_draws in Hrun as (n & Hsrc & Hlen & Hn).
  exists n. split; [exact Hsrc |]. split; [| exact Hn].
  cbn [allCombos map concat length] in Hlen. by rewrite Nat.mul_0_r in Hlen.
Qed.

Lemma draws_of_a_run_are_bounded_witness :
  exists plan st n,
    runWeek sampleMenu 7 1 550 800 (sourceOf weekOfDraws) = Ok (plan, st)
    /\ length (allCombos plan) = 7%nat
    /\ randSource st = advance n (sourceOf weekOfDraws)
    /\ (3 * length (allCombos plan) <= n)%nat
    /\ (n <= drawsOfRun 7 1)%nat.
Proof.
  assert (Hrun : exists plan st,
             runWeek sampleMenu 7 1 550 800 (sourceOf weekOfDraws) = Ok (plan, st)
             /\ length (allCombos plan) = 7%nat).
  { eexists _, _. split; vm_compute; reflexivity. }
  destruct Hrun as (plan & st & Hrun & Hlen).
  destruct (draws_of_a_run_are_bounded sampleMenu 7 1 550 800 (sourceOf weekOfDraws)
              plan st Hrun) as (n & Hn).
  exists plan, st, n. split; [exact Hrun |]. split; [exact Hlen | exact Hn].
Defined.

(** ** The handler *)

Lemma runWeek_returns (masterMenu : list MenuItem)
    (numDays numCombosPerDay minCalories maxCalories : Z) (seeded : Source) :
  numDays <= 7 ->
  exists plan st,
    runWeek masterMenu numDays numCombosPerDay minCalories maxCalories seeded
      = Ok (plan, st)
    /\ map Day plan = take (Z.to_nat numDays) dayNames.
Proof.
  intros Hdays.
  destruct (dayLoop_rule (categorizeMenu masterMenu) numCombosPerDay minCalories
              maxCalories
              (fun plan d _ => map Day plan = take (Z.to_nat d) dayNames))
    with (remaining := Z.to_nat numDays) (d := 0)
      (plan := @nil DailyMenu) (st := initialStore seeded)
    as (plan & st & Hrun & HK); try done; try lia.
  - intros plan d ds name Hd HK Hname.
    rewrite map_app, HK. simpl.
    replace (Z.to_nat (d + 1)) with (S (Z.to_nat d)) by lia.
    by rewrite (take_S_r _ _ _ Hname).
  - exists plan, st. split; [exact Hrun |].
    by replace (Z.to_nat (0 + Z.of_nat (Z.to_nat numDays))) with (Z.to_nat numDays)
      in HK by lia.
Qed.

Section HandlerFacts.
Variable os_ReadFile : string -> fallible (list Byte.byte).
Variable json_Unmarshal : list Byte.byte -> fallible (list MenuItem).
Variable json_Marshal : MenuPlan -> fallible string.

(** X11: the handler never panics.  It answers 200 exactly when the file
    was read and decoded to a catalog with an item; the body is then
    the encoding of a plan for the seven days of the week, of at most
    three combos a day, each built from a main, a side and a drink of
    the catalog that [isValidCombo] accepts for 550 to 800 kcal.
    Otherwise it answers 500 with the text of the cause. *)
Theorem generateMenuHandler_serves_a_week (seeded : Source) :
  exists response,
    generateMenuHandler os_ReadFile json_Unmarshal json_Marshal seeded = Ok response
    /\ ((exists data items plan,
           os_ReadFile "./data/master_menu.json" = Done data
           /\ json_Unmarshal data = Done items
           /\ items <> []
           /\ generateMenuSuggestions items 7 3 550 800 seeded = Ok plan
           /\ response = {| StatusCode := 200;
                            ContentType := "application/json";
                            Body := json_Encode json_Marshal plan |}
           /\ map Day (MenuPlan_MenuPlan plan) = dayNames
           /\ Forall (fun day => (length (Combos day) <= 3)%nat) (MenuPlan_MenuPlan plan)
           /\ Forall (builtFrom (categorizeMenu items) 550 800)
                (allCombos (MenuPlan_MenuPlan plan)))
        \/ (exists cause,
              os_ReadFile "./data/master_menu.json" = Failed cause
              /\ response
                 = http_Error ("Unable to load menu file: failed to read menu file "
                               +:+ "./data/master_menu.json: " +:+ cause) 500)
        \/ (exists data cause,
              os_ReadFile "./data/master_menu.json" = Done data
              /\ json_Unmarshal data = Failed cause
              /\ response
                 = http_Error ("Unable to load menu file: failed to unmarshal JSON from "
                               +:+ "./data/master_menu.json: " +:+ cause) 500)
        \/ (exists data,
              os_ReadFile "./data/master_menu.json" = Done data
              /\ json_Unmarshal data = Done []
              /\ response
                 = http_Error "Master menu is empty or could not be loaded." 500)).
Proof.
  unfold generateMenuHandler, loadMenuFromJSON.
  destruct (os_ReadFile "./data/master_menu.json") as [data | cause];
    [| eexists; split; [reflexivity |]; right; left; by exists cause].
  destruct (json_Unmarshal data) as [items | cause] eqn:Hdec;
    [| eexists; split; [reflexivity |]; right; right; left; by exists data, cause].
  destruct items as [| item items];
    [eexists; split; [reflexivity |]; right; right; right; by exists data |].
  cbn [length]. replace (Z.of_nat (S (length items)) =? 0) with false
    by (symmetry; apply Z.eqb_neq; lia).
  destruct (runWeek_returns (item :: items) 7 3 550 800 seeded)
    as (plan & st & Hrun & Hdays); [lia |].
  assert (Hplan : generateMenuSuggestions (item :: items) 7 3 550 800 seeded
                  = Ok {| MenuPlan_MenuPlan := plan |})
    by (unfold generateMenuSuggestions; by rewrite Hrun).
  rewrite Hplan. eexists. split; [reflexivity |]. left.
  exists data, (item :: items), {| MenuPlan_MenuPlan := plan |}.
  split; [done |]. split; [done |]. split; [done |]. split; [done |].
  split; [done |]. split; [exact Hdays |].
  split; [exact (plan_days_sizes _ _ _ _ _ _ _ _ Hrun) | by eapply plan_combos_built].
Qed.
End HandlerFacts.
